(** * Voting contract and its HTTP facade: a shallow embedding

    The development follows [contracts/Voting.sol] (the election state
    machine) and the Express application that fronts it (the request
    handlers for starting an election, adding candidates, reading results and
    reading a voter's status).

    - [uint] values are naturals below [2^256]; Solidity 0.8 arithmetic is
      checked, so an overflowing [+], [*] or [++] aborts the call with
      [Panic(0x11)].
    - [mapping(address => Voter)] is a finite map whose missing keys read as
      the all-zero record, as storage does.
    - A call either returns [Ok] with its result or reverts; a reverted
      transaction leaves the contract storage as it was.
    - JavaScript numbers are IEEE binary64 values, written with the
      reference semantics of [SpecFloat] (precision 53, [emax] 1024). *)

From Stdlib Require Import ZArith NArith List Lia Bool.
From Stdlib Require Import Sorting.Permutation Sorting.Sorted.
From Stdlib Require Import DecimalString.
From Corelib Require Import SpecFloat.
From stdpp Require Import gmap strings list fin_maps.

Local Open Scope string_scope.
Local Open Scope N_scope.

(** ** Solidity values *)

Module Sol.

Abbreviation uint := N (only parsing).
Abbreviation address := N (only parsing).

Definition UINT_MAX : N := 2 ^ 256 - 1.

(** Why a call stopped: [require(cond, msg)] gives [Error msg]; a failed
    arithmetic check gives [Panic 0x11]. *)
Inductive Failure : Type :=
  | Error (msg : string)
  | Panic (code : N).

Inductive result (A : Type) : Type :=
  | Ok (a : A)
  | Revert (why : Failure).
Arguments Ok {A} a.
Arguments Revert {A} why.

#[export] Instance result_ret : MRet result := fun A a => Ok a.

#[export] Instance result_bind : MBind result := fun A B k r =>
  match r with
  | Ok a => k a
  | Revert w => Revert w
  end.

Definition require (cond : bool) (msg : string) : result unit :=
  if cond then Ok tt else Revert (Error msg).

(** Checked arithmetic of Solidity 0.8. *)
Definition checked_add (a b : uint) : result uint :=
  if a + b <=? UINT_MAX then Ok (a + b) else Revert (Panic 17).

Definition checked_mul (a b : uint) : result uint :=
  if a * b <=? UINT_MAX then Ok (a * b) else Revert (Panic 17).

(** [1 minutes] *)
Definition minutes : uint := 60.

End Sol.
Import Sol.

(** ** The contract storage *)

Record Candidate : Type := mkCandidate {
  id : uint;
  name : string;
  party : string;
  proposal : string;
  voteCount : uint
}.

Record Voter : Type := mkVoter {
  hasVoted : bool;
  votedCandidateId : uint;
  isRegistered : bool
}.

(** The value a mapping slot reads as before anything is written to it. *)
Definition Voter_zero : Voter :=
  {| hasVoted := false; votedCandidateId := 0; isRegistered := false |}.

Record Voting : Type := mkVoting {
  admin : address;
  electionName : string;
  startTime : uint;
  endTime : uint;
  electionStarted : bool;
  electionEnded : bool;
  candidates : list Candidate;
  voters : gmap N Voter;
  totalVotes : uint
}.

(** [msg.sender] and [block.timestamp] of a call. *)
Record Msg : Type := mkMsg {
  sender : address;
  timestamp : uint
}.

(** [voters[a]] *)
Definition voter_at (s : Voting) (a : address) : Voter :=
  default Voter_zero (voters s !! a).

Definition set_voter (s : Voting) (a : address) (v : Voter) : Voting :=
  {| admin := admin s; electionName := electionName s;
     startTime := startTime s; endTime := endTime s;
     electionStarted := electionStarted s; electionEnded := electionEnded s;
     candidates := candidates s;
     voters := <[a := v]> (voters s);
     totalVotes := totalVotes s |}.

Definition set_candidates (s : Voting) (cs : list Candidate) : Voting :=
  {| admin := admin s; electionName := electionName s;
     startTime := startTime s; endTime := endTime s;
     electionStarted := electionStarted s; electionEnded := electionEnded s;
     candidates := cs;
     voters := voters s;
     totalVotes := totalVotes s |}.

Definition set_totalVotes (s : Voting) (n : uint) : Voting :=
  {| admin := admin s; electionName := electionName s;
     startTime := startTime s; endTime := endTime s;
     electionStarted := electionStarted s; electionEnded := electionEnded s;
     candidates := candidates s;
     voters := voters s;
     totalVotes := n |}.

(** [candidates.length] *)
Definition candidates_length (s : Voting) : uint :=
  N.of_nat (length (candidates s)).

(** ** Modifiers *)

Definition onlyAdmin (m : Msg) (s : Voting) : result unit :=
  require (sender m =? admin s) "Only admin can perform this action".

Definition electionActive (m : Msg) (s : Voting) : result unit :=
  require (electionStarted s) "Election has not started yet" ;;
  require (negb (electionEnded s)) "Election has already ended" ;;
  require ((startTime s <=? timestamp m) && (timestamp m <=? endTime s))
          "Election is not active".

(** ** Constructor and transactions *)

Definition constructor (m : Msg) (_electionName : string) : Voting :=
  {| admin := sender m; electionName := _electionName;
     startTime := 0; endTime := 0;
     electionStarted := false; electionEnded := false;
     candidates := []; voters := ∅; totalVotes := 0 |}.

Definition addCandidate (m : Msg) (_name _party _proposal : string)
    (s : Voting) : result Voting :=
  onlyAdmin m s ;;
  require (negb (electionStarted s))
          "Cannot add candidate after election has started" ;;
  let candidateId := candidates_length s in
  Ok (set_candidates s
        (candidates s ++
           [{| id := candidateId; name := _name; party := _party;
               proposal := _proposal; voteCount := 0 |}])).

Definition registerVoter (m : Msg) (_voter : address) (s : Voting)
    : result Voting :=
  onlyAdmin m s ;;
  require (negb (isRegistered (voter_at s _voter)))
          "Voter is already registered" ;;
  let v := voter_at s _voter in
  Ok (set_voter s _voter
        {| hasVoted := false;
           votedCandidateId := votedCandidateId v;
           isRegistered := true |}).

Definition startElection (m : Msg) (_durationInMinutes : uint) (s : Voting)
    : result Voting :=
  onlyAdmin m s ;;
  require (negb (electionStarted s)) "Election has already started" ;;
  require (0 <? candidates_length s) "No candidates registered" ;;
  let startTime' := timestamp m in
  d ← checked_mul _durationInMinutes minutes;
  endTime' ← checked_add startTime' d;
  Ok {| admin := admin s; electionName := electionName s;
        startTime := startTime'; endTime := endTime';
        electionStarted := true; electionEnded := electionEnded s;
        candidates := candidates s; voters := voters s;
        totalVotes := totalVotes s |}.

(** [candidates[i].voteCount++] on an index already checked to be in range. *)
Definition bump (c : Candidate) : result Candidate :=
  n ← checked_add (voteCount c) 1;
  Ok {| id := id c; name := name c; party := party c;
        proposal := proposal c; voteCount := n |}.

Definition vote (m : Msg) (_candidateId : uint) (s : Voting)
    : result Voting :=
  electionActive m s ;;
  let sender_ := voter_at s (sender m) in
  require (isRegistered sender_) "You are not registered to vote" ;;
  require (negb (hasVoted sender_)) "You have already voted" ;;
  require (_candidateId <? candidates_length s) "Invalid candidate" ;;
  let s1 := set_voter s (sender m)
              {| hasVoted := true;
                 votedCandidateId := _candidateId;
                 isRegistered := isRegistered sender_ |} in
  match candidates s1 !! N.to_nat _candidateId with
  | None => Revert (Panic 50)
  | Some c =>
      c' ← bump c;
      let s2 := set_candidates s1
                  (<[N.to_nat _candidateId := c']> (candidates s1)) in
      t ← checked_add (totalVotes s2) 1;
      Ok (set_totalVotes s2 t)
  end.

Definition endElection (m : Msg) (s : Voting) : result Voting :=
  onlyAdmin m s ;;
  electionActive m s ;;
  Ok {| admin := admin s; electionName := electionName s;
        startTime := startTime s; endTime := endTime s;
        electionStarted := electionStarted s; electionEnded := true;
        candidates := candidates s; voters := voters s;
        totalVotes := totalVotes s |}.

(** ** Views *)

Definition getCandidate (_candidateId : uint) (s : Voting)
    : result (uint * string * string * string * uint) :=
  require (_candidateId <? candidates_length s) "Invalid candidate ID" ;;
  match candidates s !! N.to_nat _candidateId with
  | None => Revert (Panic 50)
  | Some c => Ok (id c, name c, party c, proposal c, voteCount c)
  end.

Definition getCandidateCount (s : Voting) : uint := candidates_length s.

Definition getResults (s : Voting)
    : result (list uint * list string * list uint) :=
  require (electionEnded s) "Election has not ended yet" ;;
  Ok (map id (candidates s), map name (candidates s),
      map voteCount (candidates s)).

Definition hasVoted_ (_voter : address) (s : Voting) : bool :=
  hasVoted (voter_at s _voter).

(** The getter Solidity generates for the public mapping [voters]. *)
Definition voters_ (a : address) (s : Voting) : bool * uint * bool :=
  let v := voter_at s a in (hasVoted v, votedCandidateId v, isRegistered v).

Definition getElectionStatus (m : Msg) (s : Voting)
    : bool * bool * uint * uint * uint :=
  (electionStarted s, electionEnded s, startTime s, endTime s, timestamp m).

(** ** Transactions against the ledger *)

Inductive Call : Type :=
  | AddCandidate (_name _party _proposal : string)
  | RegisterVoter (_voter : address)
  | StartElection (_durationInMinutes : uint)
  | Vote (_candidateId : uint)
  | EndElection.

Definition exec (m : Msg) (c : Call) (s : Voting) : result Voting :=
  match c with
  | AddCandidate n p q => addCandidate m n p q s
  | RegisterVoter a => registerVoter m a s
  | StartElection d => startElection m d s
  | Vote i => vote m i s
  | EndElection => endElection m s
  end.

(** A reverted transaction changes nothing. *)
Definition step (s : Voting) (mc : Msg * Call) : Voting :=
  match exec (fst mc) (snd mc) s with
  | Ok s' => s'
  | Revert _ => s
  end.

Definition run (s : Voting) (txs : list (Msg * Call)) : Voting :=
  fold_left step txs s.

(** The states visited by [run], the starting state first. *)
Fixpoint trace (s : Voting) (txs : list (Msg * Call)) : list Voting :=
  match txs with
  | [] => [s]
  | tx :: rest => s :: trace (step s tx) rest
  end.

Inductive reachable : Voting -> Prop :=
  | reach_deploy (m : Msg) (_electionName : string) :
      reachable (constructor m _electionName)
  | reach_step (s : Voting) (mc : Msg * Call) :
      reachable s -> reachable (step s mc).

(** ** Phases *)

Inductive Phase : Type := Created | Active | Ended.

Definition phase (s : Voting) : Phase :=
  if electionEnded s then Ended
  else if electionStarted s then Active
  else Created.

(** ** JavaScript numbers *)

Module Js.

(** IEEE 754 binary64. *)
Definition prec : Z := 53.
Definition emax : Z := 1024.

Abbreviation number := spec_float (only parsing).

(** [Number(x)] for a ledger integer [x]: the handlers first turn the
    [BigInt] into its decimal string ([sanitizeBigInt]) and then read the
    string back with [Number], which yields the nearest double, ties to
    even. *)
Definition Number_of_uint (n : N) : number :=
  binary_normalize prec emax (Z.of_N n) 0 false.

Definition zero : number := S754_zero false.
Definition hundred : number := Number_of_uint 100.

Definition sub (x y : number) : number := SFsub prec emax x y.
Definition div (x y : number) : number := SFdiv prec emax x y.
Definition mul (x y : number) : number := SFmul prec emax x y.

(** [x > y] *)
Definition gt (x y : number) : bool := SFltb y x.

(** The exponent of the smallest positive double, [2^-1074]. *)
Definition emin : Z := -1074.

(** The value of a finite double counted in units of [2^-1074]: every finite
    double is a whole number of them, so this is its exact value on an
    integer scale. *)
Definition ulps (x : number) : Z :=
  match x with
  | S754_finite s m e => cond_Zopp s (Z.pos m * 2 ^ (e - emin))%Z
  | _ => 0%Z
  end.


(** [x >= 10^21], for a positive finite [x = m * 2^e]. *)
Definition at_least_1e21 (m : positive) (e : Z) : bool :=
  (if 0 <=? e then 10 ^ 21 <=? Z.pos m * 2 ^ e
   else 10 ^ 21 * 2 ^ (- e) <=? Z.pos m)%Z.

(** The integer [n] for which [n / 10^f] is nearest to [m * 2^e], the larger
    one when two are equally near. *)
Definition nearest_scaled (f : nat) (m : positive) (e : Z) : Z :=
  (if 0 <=? e then Z.pos m * 2 ^ e * 10 ^ Z.of_nat f
   else (2 * Z.pos m * 10 ^ Z.of_nat f + 2 ^ (- e)) / (2 * 2 ^ (- e)))%Z.

(** The decimal digits of a non-negative integer. *)
Definition decimal (n : Z) : string :=
  NilZero.string_of_uint (N.to_uint (Z.to_N n)).

Fixpoint zeros (k : nat) : string :=
  match k with
  | O => ""
  | S k' => ("0" ++ zeros k')%string
  end.

(** The digits of [n] with a point before the last [f] of them, padded with
    zeros on the left to [f + 1] digits. *)
Definition with_point (f : nat) (digits : string) : string :=
  let k := String.length digits in
  let padded := (zeros (f + 1 - k) ++ digits)%string in
  let k' := String.length padded in
  match f with
  | O => padded
  | _ => (String.substring 0 (k' - f) padded ++ "." ++
          String.substring (k' - f) f padded)%string
  end.

(** [x.toFixed(f)]. For [x >= 10^21] JavaScript falls back on the general
    number-to-string conversion, which is not written out here: the result
    is [None] there. *)
Definition toFixed (f : nat) (x : number) : option string :=
  match x with
  | S754_nan => Some "NaN"
  | S754_infinity s => Some (if s then "-Infinity" else "Infinity")
  | S754_zero _ => Some (with_point f "0")
  | S754_finite s m e =>
      if at_least_1e21 m e then None
      else Some ((if s then "-" else "") ++
                 with_point f (decimal (nearest_scaled f m e)))%string
  end.

(** [Array.prototype.sort(comparefn)]: a stable sort; an element goes behind
    another one only when [comparefn] of the two is positive. *)
Section Sort.
Context {A : Type} (comparefn : A -> A -> number).

Fixpoint insert_sorted (x : A) (l : list A) : list A :=
  match l with
  | [] => [x]
  | y :: l' =>
      if gt (comparefn x y) zero then y :: insert_sorted x l'
      else x :: y :: l'
  end.

Definition sort (l : list A) : list A := fold_right insert_sorted [] l.
End Sort.

(** [1], [x + y] and [x < y] *)
Definition one : number := Number_of_uint 1.
Definition add (x y : number) : number := SFadd prec emax x y.
Definition lt (x y : number) : bool := SFltb x y.

(** The [uint256] argument a number is encoded as: its value, when that is
    an integer of the range; the encoder throws for any other number. *)
Definition to_uint (x : number) : option N :=
  match x with
  | S754_zero _ => Some 0%N
  | S754_finite false m e =>
      (if 0 <=? e
       then (if Z.pos m * 2 ^ e <=? Z.of_N UINT_MAX
             then Some (Z.to_N (Z.pos m * 2 ^ e)) else None)
       else (if Z.pos m mod 2 ^ (- e) =? 0
             then Some (Z.to_N (Z.pos m / 2 ^ (- e))) else None))%Z
  | _ => None
  end.

End Js.

(** ** The HTTP facade *)

Record ResultRow : Type := mkResultRow {
  row_id : spec_float;
  row_name : string;
  row_voteCount : spec_float;
  row_percentage : option string
}.

Inductive Thrown : Type :=
  | Reverted (why : Failure)     (* the ledger refused the call *)
  | InvalidArgument.             (* the argument does not encode as [uint256] *)

Inductive Body : Type :=
  | ErrorBody (error : string)
  | ThrownBody (error : Thrown)
  | ValidationErrors (errors : list string)
  | MessageBody (message : string)
  | ResultsBody (totalVotes_ : spec_float) (candidates_ : list ResultRow)
  | VoterStatusBody (address_ : string) (isRegistered_ hasVoted__ : bool)
                    (votedFor : option spec_float).

Record Response : Type := mkResponse {
  status : nat;
  body : Body
}.

(** The deployment's environment: [process.env.ADMIN_API_KEY] and
    [process.env.ADMIN_ADDRESS]. *)
Record Env : Type := mkEnv {
  ADMIN_API_KEY : option string;
  ADMIN_ADDRESS : N
}.

(** [adminAuth]: the request passes when its [x-api-key] header is a
    non-empty string equal to the configured key. *)
Definition adminAuth (env : Env) (apiKey : option string) : bool :=
  match apiKey with
  | None => false
  | Some k =>
      negb (String.eqb k "") &&
      match ADMIN_API_KEY env with
      | Some k' => String.eqb k k'
      | None => false
      end
  end.

Definition unauthorized : Response :=
  {| status := 401; body := ErrorBody "Unauthorized: Admin access required" |}.

(** [sendTransaction(method, account, privateKey)]: the gas estimate runs
    the call and throws when it would revert; otherwise the signed
    transaction is mined with [account] as its sender. Gas, nonce and
    signature are left out. *)
Definition sendTransaction (now : N) (c : Call) (account : N) (s : Voting)
    : result Voting :=
  exec {| sender := account; timestamp := now |} c s.

(** The validators of the request bodies, on fields of their declared types:
    [isInt({ min: 1 })] on an integer and [notEmpty()] on a string. *)
Definition isInt_min (min : Z) (v : Z) : bool := (min <=? v)%Z.
Definition notEmpty (v : string) : bool := negb (String.eqb v "").

Definition validation (checks : list (bool * string)) : list string :=
  map snd (List.filter (fun c => negb (fst c)) checks).

(** [POST /api/election/start] *)
Definition post_election_start (env : Env) (apiKey : option string)
    (durationInMinutes : Z) (now : N) (s : Voting) : Response * Voting :=
  if negb (adminAuth env apiKey) then (unauthorized, s)
  else
    match validation [(isInt_min 1 durationInMinutes,
                       "Duration must be a positive integer")] with
    | (_ :: _) as errors => ({| status := 400; body := ValidationErrors errors |}, s)
    | [] =>
        if (Z.of_N UINT_MAX <? durationInMinutes)%Z
        then ({| status := 500; body := ThrownBody InvalidArgument |}, s)
        else
          match sendTransaction now (StartElection (Z.to_N durationInMinutes))
                  (ADMIN_ADDRESS env) s with
          | Ok s' => ({| status := 200;
                         body := MessageBody "Election started successfully" |}, s')
          | Revert w => ({| status := 500; body := ThrownBody (Reverted w) |}, s)
          end
    end.

(** [POST /api/candidates] *)
Definition post_candidates (env : Env) (apiKey : option string)
    (name_ party_ proposal_ : string) (now : N) (s : Voting)
    : Response * Voting :=
  if negb (adminAuth env apiKey) then (unauthorized, s)
  else
    match validation [(notEmpty name_, "Candidate name is required");
                      (notEmpty party_, "Party name is required");
                      (notEmpty proposal_, "Proposal is required")] with
    | (_ :: _) as errors => ({| status := 400; body := ValidationErrors errors |}, s)
    | [] =>
        match sendTransaction now (AddCandidate name_ party_ proposal_)
                (ADMIN_ADDRESS env) s with
        | Ok s' => ({| status := 201;
                       body := MessageBody "Candidate added successfully" |}, s')
        | Revert w => ({| status := 500; body := ThrownBody (Reverted w) |}, s)
        end
    end.

(** One entry of [formattedResults]. *)
Definition formatRow (totalVotes_ : N) (id_ : N) (name_ : string) (voteCount_ : N)
    : ResultRow :=
  {| row_id := Js.Number_of_uint id_;
     row_name := name_;
     row_voteCount := Js.Number_of_uint voteCount_;
     row_percentage :=
       if Js.gt (Js.Number_of_uint totalVotes_) Js.zero
       then Js.toFixed 2
              (Js.mul (Js.div (Js.Number_of_uint voteCount_)
                              (Js.Number_of_uint totalVotes_))
                      Js.hundred)
       else Some "0.00" |}.

(** The loop over [results[0]], reading the same index of [results[1]] and
    [results[2]]. *)
Definition formatResults (results : list N * list string * list N)
    (totalVotes_ : N) : list ResultRow :=
  let '(ids, names, counts) := results in
  imap (fun i id_ =>
          formatRow totalVotes_ id_ (default "" (names !! i))
                    (default 0 (counts !! i)))
       ids.

(** [(a, b) => b.voteCount - a.voteCount] *)
Definition byVotesDescending (a b : ResultRow) : spec_float :=
  Js.sub (row_voteCount b) (row_voteCount a).

(** [GET /api/results] *)
Definition get_results (now : N) (s : Voting) : Response :=
  let '(_, isEnded, _, _, _) :=
    getElectionStatus {| sender := 0; timestamp := now |} s in
  if negb isEnded
  then {| status := 403; body := ErrorBody "Election has not ended yet" |}
  else
    match getResults s with
    | Revert w => {| status := 500; body := ThrownBody (Reverted w) |}
    | Ok results =>
        let formattedResults := formatResults results (totalVotes s) in
        {| status := 200;
           body := ResultsBody (Js.Number_of_uint (totalVotes s))
                     (Js.sort byVotesDescending formattedResults) |}
    end.

(** [GET /api/voters/:address/status]. The address check and the encoding of
    an address string are web3's. *)
Section VoterStatus.
Variable isAddress : string -> bool.
Variable toAddress : string -> N.

Definition get_voter_status (address_ : string) (s : Voting) : Response :=
  if negb (isAddress address_)
  then {| status := 400; body := ErrorBody "Invalid Ethereum address" |}
  else
    let hasVoted' := hasVoted_ (toAddress address_) s in
    let '(_, votedCandidateId', isRegistered') :=
      voters_ (toAddress address_) s in
    {| status := 200;
       body := VoterStatusBody address_ isRegistered' hasVoted'
                 (if hasVoted' then Some (Js.Number_of_uint votedCandidateId')
                  else None) |}.
End VoterStatus.

(** The handlers that send a transaction for an address given as a string.
    As in [sendTransaction], the private key of a request is taken to be the
    key of the account it names. *)
Section Addressed.
Variable isAddress : string -> bool.
Variable toAddress : string -> N.

(** [POST /api/voters/register] *)
Definition post_voters_register (env : Env) (apiKey : option string)
    (voterAddress : string) (now : N) (s : Voting) : Response * Voting :=
  if negb (adminAuth env apiKey) then (unauthorized, s)
  else
    match validation [(notEmpty voterAddress,
                       "Voter Ethereum address is required")] with
    | (_ :: _) as errors => ({| status := 400; body := ValidationErrors errors |}, s)
    | [] =>
        if negb (isAddress voterAddress)
        then ({| status := 400; body := ErrorBody "Invalid Ethereum address" |}, s)
        else
          match sendTransaction now (RegisterVoter (toAddress voterAddress))
                  (ADMIN_ADDRESS env) s with
          | Ok s' => ({| status := 201;
                         body := MessageBody "Voter registered successfully" |}, s')
          | Revert w => ({| status := 500; body := ThrownBody (Reverted w) |}, s)
          end
    end.

(** [POST /api/vote]. The read of [voters(voterAddress)] throws for a string
    that is no address, and the encoding of [candidateId] throws for an
    integer above the [uint256] range; both are caught and answered with
    500. *)
Definition post_vote (candidateId : Z) (voterAddress privateKey : string)
    (now : N) (s : Voting) : Response * Voting :=
  match validation [(isInt_min 0 candidateId,
                     "Candidate ID must be a non-negative integer");
                    (notEmpty voterAddress, "Voter address is required");
                    (notEmpty privateKey, "Private key is required")] with
  | (_ :: _) as errors => ({| status := 400; body := ValidationErrors errors |}, s)
  | [] =>
      if negb (isAddress voterAddress)
      then ({| status := 500; body := ThrownBody InvalidArgument |}, s)
      else
        let '(hasVoted', _, isRegistered') := voters_ (toAddress voterAddress) s in
        if negb isRegistered'
        then ({| status := 403; body := ErrorBody "Voter is not registered" |}, s)
        else if hasVoted'
        then ({| status := 403; body := ErrorBody "Voter has already cast a vote" |}, s)
        else if (Z.of_N UINT_MAX <? candidateId)%Z
        then ({| status := 500; body := ThrownBody InvalidArgument |}, s)
        else
          match sendTransaction now (Vote (Z.to_N candidateId))
                  (toAddress voterAddress) s with
          | Ok s' => ({| status := 200;
                         body := MessageBody "Vote cast successfully" |}, s')
          | Revert w => ({| status := 500; body := ThrownBody (Reverted w) |}, s)
          end
  end.

End Addressed.

(** [POST /api/election/end] *)
Definition post_election_end (env : Env) (apiKey : option string)
    (now : N) (s : Voting) : Response * Voting :=
  if negb (adminAuth env apiKey) then (unauthorized, s)
  else
    match sendTransaction now EndElection (ADMIN_ADDRESS env) s with
    | Ok s' => ({| status := 200;
                   body := MessageBody "Election ended successfully" |}, s')
    | Revert w => ({| status := 500; body := ThrownBody (Reverted w) |}, s)
    end.

(** ** [sanitizeBigInt] *)

(** The values the handlers pass through [sanitizeBigInt]: the plain data
    the ledger client returns. An object is the list of its own properties
    in enumeration order, each key once. *)
#[local] Unset Elimination Schemes.
Inductive JsValue : Type :=
  | JUndefined
  | JNull
  | JBoolean (b : bool)
  | JNumber (x : spec_float)
  | JString (s : string)
  | JBigInt (z : Z)
  | JArray (items : list JsValue)
  | JObject (props : list (string * JsValue)).
#[local] Set Elimination Schemes.

(** [BigInt.prototype.toString()] *)
Definition BigInt_toString (z : Z) : string :=
  if (z <? 0)%Z then ("-" ++ Js.decimal (- z))%string else Js.decimal z.

Fixpoint sanitizeBigInt (obj : JsValue) : JsValue :=
  match obj with
  | JNull => JNull
  | JUndefined => JUndefined
  | JBigInt z => JString (BigInt_toString z)
  | JArray items => JArray (map sanitizeBigInt items)
  | JObject props =>
      JObject (map (fun kv => let '(key, v) := kv in (key, sanitizeBigInt v)) props)
  | other => other
  end.



(** ** [GET /api/candidates] *)

(** The object pushed for the tuple [getCandidate] returns. *)
Definition candidateRow (candidate : uint * string * string * string * uint)
    : JsValue :=
  let '(id_, name_, party_, proposal_, voteCount_) := candidate in
  JObject [("id", JNumber (Js.Number_of_uint id_));
           ("name", JString name_);
           ("party", JString party_);
           ("proposal", JString proposal_);
           ("voteCount", JNumber (Js.Number_of_uint voteCount_))].

(** [for (let i = 0; i < Number(candidateCount); i++)]: the counter is a
    JavaScript number, and the loop reads candidate [i] of the ledger in each
    round. [fuel] bounds the number of times the test is evaluated; a call
    that throws leaves the loop for the [catch]. *)
Fixpoint candidates_loop (fuel : nat) (i : Js.number) (candidateCount : uint)
    (candidates_ : list JsValue) (s : Voting) : option (Thrown + list JsValue) :=
  match fuel with
  | O => None
  | S fuel' =>
      if Js.lt i (Js.Number_of_uint candidateCount)
      then
        match Js.to_uint i with
        | None => Some (inl InvalidArgument)
        | Some _candidateId =>
            match getCandidate _candidateId s with
            | Revert w => Some (inl (Reverted w))
            | Ok candidate =>
                candidates_loop fuel' (Js.add i Js.one) candidateCount
                  (candidates_ ++ [candidateRow candidate]) s
            end
        end
      else Some (inr candidates_)
  end.

(** The handler: status and body, [None] when [fuel] does not suffice. *)
Definition get_candidates (fuel : nat) (s : Voting)
    : option (nat * (Thrown + JsValue)) :=
  match candidates_loop fuel Js.zero (getCandidateCount s) [] s with
  | None => None
  | Some (inl error) => Some (500%nat, inl error)
  | Some (inr candidates_) =>
      Some (200%nat, inr (sanitizeBigInt (JArray candidates_)))
  end.

(** ** The deployment script *)

(** [gasEstimate + gasEstimate / BigInt(5)]: the estimate with its 20 per
    cent buffer; [BigInt] division truncates. *)
Definition gasWithBuffer (gasEstimate : Z) : Z :=
  (gasEstimate + Z.quot gasEstimate 5)%Z.

(** ** Notions used in the statements *)

(** What a failed [electionActive] reports. *)
Definition ElectionNotActive (w : Failure) : Prop :=
  w = Error "Election has not started yet" \/
  w = Error "Election has already ended" \/
  w = Error "Election is not active".

(** [Σ candidate.voteCount] *)
Definition tally (cs : list Candidate) : N :=
  fold_right (fun c acc => voteCount c + acc) 0 cs.

(** The number of voter records with [hasVoted = true]. *)
Definition voted_count (s : Voting) : N :=
  N.of_nat (size (filter (fun kv : N * Voter => hasVoted kv.2 = true) (voters s))).

(** What holds of the storage in every state reached from deployment. *)
Record consistent (s : Voting) : Prop := {
  voted_is_registered :
    forall a, hasVoted (voter_at s a) = true -> isRegistered (voter_at s a) = true;
  total_is_tally : totalVotes s = tally (candidates s);
  total_is_voted_count : totalVotes s = voted_count s;
  ended_is_started : electionEnded s = true -> electionStarted s = true;
  total_in_range : totalVotes s <= UINT_MAX
}.

(** The number of places where a sequence of flags goes from [false] to
    [true]. *)
Fixpoint rises (bs : list bool) : nat :=
  match bs with
  | [] => 0
  | b1 :: rest =>
      match rest with
      | [] => 0
      | b2 :: _ => (if negb b1 && b2 then 1 else 0) + rises rest
      end
  end.

(** A sequence of flags that never goes from [true] back to [false]. *)
Fixpoint nofall (bs : list bool) : Prop :=
  match bs with
  | [] => True
  | b1 :: rest =>
      match rest with
      | [] => True
      | b2 :: _ => (b1 = true -> b2 = true) /\ nofall rest
      end
  end.

(** The order of the phases, one move at a time. *)
Definition phase_next (p q : Phase) : Prop :=
  q = p \/ (p = Created /\ q = Active) \/ (p = Active /\ q = Ended).

(** The place of a phase in the order [Created], [Active], [Ended]. *)
Definition phase_rank (p : Phase) : nat :=
  match p with Created => 0 | Active => 1 | Ended => 2 end.

(** Orderings of a list by an integer key. *)
Section Ordering.
Context {A : Type} (comparefn : A -> A -> spec_float) (key : A -> Z).




End Ordering.



(** The number of voter records that have voted for candidate [i]. *)
Definition votes_for (s : Voting) (i : N) : N :=
  N.of_nat (size (filter (fun kv : N * Voter =>
                            hasVoted kv.2 = true /\ votedCandidateId kv.2 = i)
                         (voters s))).

(** What a candidate is, apart from its votes. *)
Definition describe (c : Candidate) : N * string * string * string :=
  (id c, name c, party c, proposal c).

(** More of what holds of the storage in every state reached from
    deployment. *)
Record well_formed (s : Voting) : Prop := {
  ids_dense : forall i c, candidates s !! i = Some c -> id c = N.of_nat i;
  votes_per_candidate :
    forall i c, candidates s !! i = Some c -> voteCount c = votes_for s (N.of_nat i);
  voted_for_valid :
    forall a, hasVoted (voter_at s a) = true ->
      votedCandidateId (voter_at s a) < candidates_length s;
  window_ordered : startTime s <= endTime s;
  unstarted_window : electionStarted s = false -> startTime s = 0 /\ endTime s = 0
}.

(** A 2xx status. *)
Definition succeeded (r : Response) : bool :=
  Nat.eqb (status r) 200 || Nat.eqb (status r) 201.

(** ** Sample elections *)

(** The deployment transaction: account 1 becomes the administrator. *)
Definition deployer : Msg := {| sender := 1; timestamp := 10 |}.

(** An election with one candidate, not started yet. *)
Definition created_election : Voting :=
  run (constructor deployer "Board")
    [({| sender := 1; timestamp := 11 |}, AddCandidate "A" "P" "Q")].

(** An election with one candidate and one registered voter, started at
    time 100 for one minute. *)
Definition started_election : Voting :=
  run (constructor deployer "Board")
    [({| sender := 1; timestamp := 11 |}, AddCandidate "A" "P" "Q");
     ({| sender := 1; timestamp := 12 |}, RegisterVoter 7);
     ({| sender := 1; timestamp := 100 |}, StartElection 1)].

(** [started_election] after its voter has voted and the administrator has
    ended it. *)
Definition ended_election : Voting :=
  run started_election
    [({| sender := 7; timestamp := 110 |}, Vote 0);
     ({| sender := 1; timestamp := 120 |}, EndElection)].

(** An ended election with three candidates: B has two votes, A and C one
    each. *)
Definition tied_txs : list (Msg * Call) :=
  [({| sender := 1; timestamp := 11 |}, AddCandidate "A" "P" "Q");
   ({| sender := 1; timestamp := 12 |}, AddCandidate "B" "P" "Q");
   ({| sender := 1; timestamp := 13 |}, AddCandidate "C" "P" "Q");
   ({| sender := 1; timestamp := 14 |}, RegisterVoter 7);
   ({| sender := 1; timestamp := 15 |}, RegisterVoter 8);
   ({| sender := 1; timestamp := 16 |}, RegisterVoter 9);
   ({| sender := 1; timestamp := 17 |}, RegisterVoter 10);
   ({| sender := 1; timestamp := 100 |}, StartElection 60);
   ({| sender := 7; timestamp := 110 |}, Vote 1);
   ({| sender := 8; timestamp := 120 |}, Vote 0);
   ({| sender := 9; timestamp := 130 |}, Vote 2);
   ({| sender := 10; timestamp := 140 |}, Vote 1);
   ({| sender := 1; timestamp := 200 |}, EndElection)].

Definition tied_election : Voting := run (constructor deployer "Board") tied_txs.

(** ** Reading the outcome of a call *)

Lemma bind_Ok {A B} (r : result A) (k : A -> result B) (b : B) :
  (r ≫= k) = Ok b <-> exists a, r = Ok a /\ k a = Ok b.
Proof.
  destruct r as [a|w]; cbn; split.
  - intros H. exists a. auto.
  - intros (a' & [= <-] & H). exact H.
  - discriminate.
  - intros (a' & [=] & _).
Qed.

Lemma require_Ok (cond : bool) (msg : string) (u : unit) :
  require cond msg = Ok u <-> cond = true.
Proof. destruct cond, u; cbn; split; congruence. Qed.

Lemma onlyAdmin_Ok m s u : onlyAdmin m s = Ok u <-> sender m = admin s.
Proof. unfold onlyAdmin. rewrite require_Ok. apply N.eqb_eq. Qed.

Lemma electionActive_Ok m s u :
  electionActive m s = Ok u <->
  electionStarted s = true /\ electionEnded s = false /\
  startTime s <= timestamp m <= endTime s.
Proof.
  unfold electionActive.
  destruct (electionStarted s), (electionEnded s); cbn;
    try (split; [discriminate | intros (? & ? & ?); discriminate]).
  rewrite require_Ok, andb_true_iff, !N.leb_le. tauto.
Qed.

Lemma electionActive_Revert m s w :
  electionActive m s = Revert w -> ElectionNotActive w.
Proof.
  unfold electionActive, ElectionNotActive.
  destruct (electionStarted s), (electionEnded s); cbn;
    try (intros [= <-]; tauto).
  destruct (_ && _); cbn; [discriminate | intros [= <-]; tauto].
Qed.

Ltac ok_inv H :=
  repeat match type of H with
  | (_ ≫= _) = Ok _ =>
      let u := fresh "u" in let H1 := fresh "Hreq" in
      apply bind_Ok in H; destruct H as (u & H1 & H)
  end.

(** ** Tallies *)

Lemma tally_app cs ds : tally (cs ++ ds) = tally cs + tally ds.
Proof.
  induction cs as [|c cs IH]; cbn; [reflexivity |].
  fold (tally (cs ++ ds)) (tally cs). rewrite IH. lia.
Qed.

Lemma tally_insert (cs : list Candidate) (i : nat) (c c' : Candidate) :
  cs !! i = Some c ->
  tally (<[i := c']> cs) + voteCount c = tally cs + voteCount c'.
Proof.
  revert i. induction cs as [|d cs IH]; intros [|i] H; try discriminate.
  - injection H as ->. unfold tally. cbn. lia.
  - specialize (IH i H).
    change (<[S i := c']> (d :: cs)) with (d :: <[i := c']> cs).
    unfold tally in *. cbn [fold_right]. lia.
Qed.

Lemma tally_snoc cs c : tally (cs ++ [c]) = tally cs + voteCount c.
Proof. rewrite tally_app. cbn. lia. Qed.

Arguments tally : simpl never.

(** ** The invariant of reachable states *)

Lemma voter_at_set_voter s a v b :
  voter_at (set_voter s a v) b = if decide (a = b) then v else voter_at s b.
Proof.
  unfold voter_at, set_voter; cbn. rewrite lookup_insert.
  destruct (decide (a = b)); reflexivity.
Qed.

Lemma voted_count_set_same s a v :
  hasVoted v = false -> hasVoted (voter_at s a) = false ->
  voted_count (set_voter s a v) = voted_count s.
Proof.
  intros Hv Ha. unfold voted_count, set_voter; cbn.
  rewrite map_filter_insert_not'; [reflexivity | cbn; congruence |].
  intros y Hy. cbn. unfold voter_at in Ha. rewrite Hy in Ha. cbn in Ha. congruence.
Qed.

Lemma voted_count_set_new s a v :
  hasVoted v = true -> hasVoted (voter_at s a) = false ->
  voted_count (set_voter s a v) = voted_count s + 1.
Proof.
  intros Hv Ha. unfold voted_count, set_voter; cbn.
  rewrite map_filter_insert_True by exact Hv.
  rewrite map_size_insert_None; [lia |].
  apply map_lookup_filter_None. unfold voter_at in Ha.
  destruct (voters s !! a) as [y|]; [right | left; reflexivity].
  intros x [= <-]. cbn in *. congruence.
Qed.

Lemma consistent_constructor m n : consistent (constructor m n).
Proof.
  split; cbn; try reflexivity; discriminate.
Qed.

Lemma consistent_addCandidate m n p q s s' :
  consistent s -> addCandidate m n p q s = Ok s' -> consistent s'.
Proof.
  intros [I1 I2 I3 I4 I5] H. unfold addCandidate in H. ok_inv H.
  injection H as <-. split; cbn; auto.
  rewrite tally_snoc. cbn. lia.
Qed.

Lemma consistent_registerVoter m a s s' :
  consistent s -> registerVoter m a s = Ok s' -> consistent s'.
Proof.
  intros [I1 I2 I3 I4 I5] H. unfold registerVoter in H. ok_inv H.
  injection H as <-.
  apply require_Ok, negb_true_iff in Hreq0.
  assert (Ha : hasVoted (voter_at s a) = false).
  { destruct (hasVoted (voter_at s a)) eqn:E; [|reflexivity].
    apply I1 in E. congruence. }
  split; auto.
  - intros b. rewrite voter_at_set_voter. destruct (decide (a = b)); cbn; auto.
  - rewrite voted_count_set_same; auto.
Qed.

Lemma consistent_startElection m d s s' :
  consistent s -> startElection m d s = Ok s' -> consistent s'.
Proof.
  intros [I1 I2 I3 I4 I5] H. unfold startElection in H. ok_inv H.
  injection H as <-. split; cbn; auto.
Qed.

Lemma consistent_endElection m s s' :
  consistent s -> endElection m s = Ok s' -> consistent s'.
Proof.
  intros [I1 I2 I3 I4 I5] H. unfold endElection in H. ok_inv H.
  injection H as <-. apply electionActive_Ok in Hreq0 as (Hs & _).
  split; cbn; auto.
Qed.

Lemma checked_add_Ok a b c :
  checked_add a b = Ok c -> c = a + b /\ a + b <= UINT_MAX.
Proof.
  unfold checked_add. destruct (N.leb_spec (a + b) UINT_MAX); [|discriminate].
  intros [= <-]. auto.
Qed.

(** The effect of a successful [vote], field by field. *)
Lemma vote_Ok m i s s' :
  vote m i s = Ok s' ->
  exists c,
    (electionStarted s = true /\ electionEnded s = false /\
     startTime s <= timestamp m <= endTime s) /\
    isRegistered (voter_at s (sender m)) = true /\
    hasVoted (voter_at s (sender m)) = false /\
    candidates s !! N.to_nat i = Some c /\
    totalVotes s + 1 <= UINT_MAX /\
    s' = set_totalVotes
           (set_candidates
              (set_voter s (sender m)
                 {| hasVoted := true; votedCandidateId := i;
                    isRegistered := isRegistered (voter_at s (sender m)) |})
              (<[N.to_nat i :=
                   {| id := id c; name := name c; party := party c;
                      proposal := proposal c; voteCount := voteCount c + 1 |}]>
                 (candidates s)))
           (totalVotes s + 1).
Proof.
  intros H. unfold vote in H. ok_inv H.
  apply electionActive_Ok in Hreq. apply require_Ok in Hreq0.
  apply require_Ok, negb_true_iff in Hreq1.
  cbn in H. destruct (candidates s !! N.to_nat i) as [c|] eqn:Hc; [|discriminate].
  exists c. apply bind_Ok in H as (c' & Hb & H).
  unfold bump in Hb. apply bind_Ok in Hb as (n & Hn & [= <-]).
  apply checked_add_Ok in Hn as (-> & _).
  apply bind_Ok in H as (t & Ht & [= <-]).
  apply checked_add_Ok in Ht as (-> & Hmax). cbn in *.
  auto 10.
Qed.

Lemma consistent_vote m i s s' :
  consistent s -> vote m i s = Ok s' -> consistent s'.
Proof.
  intros [I1 I2 I3 I4 I5] H.
  apply vote_Ok in H as (c & Hact & Hreg & Hnv & Hc & Hmax & ->).
  split; cbn.
  - intros b. unfold voter_at; cbn. rewrite lookup_insert.
    destruct (decide (sender m = b)); cbn; auto. apply (I1 b).
  - pose proof (tally_insert _ _ _
      {| id := id c; name := name c; party := party c;
         proposal := proposal c; voteCount := voteCount c + 1 |} Hc) as T.
    cbn in T. lia.
  - rewrite I3.
    change (voted_count s + 1 =
            voted_count (set_voter s (sender m)
              {| hasVoted := true; votedCandidateId := i;
                 isRegistered := isRegistered (voter_at s (sender m)) |})).
    rewrite voted_count_set_new; auto.
  - exact I4.
  - exact Hmax.
Qed.

Lemma consistent_step s mc : consistent s -> consistent (step s mc).
Proof.
  intros I. destruct mc as [m c]. unfold step; cbn.
  destruct (exec m c s) as [s'|w] eqn:E; [|exact I].
  destruct c; cbn in E;
    eauto using consistent_addCandidate, consistent_registerVoter,
      consistent_startElection, consistent_vote, consistent_endElection.
Qed.

Lemma reachable_consistent s : reachable s -> consistent s.
Proof.
  induction 1; [apply consistent_constructor | apply consistent_step; assumption].
Qed.

Lemma reachable_run s txs : reachable s -> reachable (run s txs).
Proof.
  revert s. induction txs as [|tx txs IH]; intros s H; cbn; [exact H|].
  apply IH. constructor. exact H.
Qed.

(** ** How a step touches a voter record and the phase flags *)

Lemma step_hasVoted_mono s mc v :
  consistent s -> hasVoted_ v s = true -> hasVoted_ v (step s mc) = true.
Proof.
  intros I Hv. destruct mc as [m c]. unfold step; cbn.
  destruct (exec m c s) as [s'|w] eqn:E; [|exact Hv].
  unfold hasVoted_ in *. destruct c; cbn in E.
  - unfold addCandidate in E. ok_inv E. injection E as <-. exact Hv.
  - unfold registerVoter in E. ok_inv E. injection E as <-.
    apply require_Ok, negb_true_iff in Hreq0.
    rewrite voter_at_set_voter. destruct (decide (_voter = v)) as [->|]; [|exact Hv].
    apply (voted_is_registered s I) in Hv. congruence.
  - unfold startElection in E. ok_inv E. injection E as <-. exact Hv.
  - apply vote_Ok in E as (c & _ & _ & _ & _ & _ & ->).
    change (hasVoted (voter_at (set_voter s (sender m)
              {| hasVoted := true; votedCandidateId := _candidateId;
                 isRegistered := isRegistered (voter_at s (sender m)) |}) v) = true).
    rewrite voter_at_set_voter. destruct (decide (sender m = v)); [reflexivity | exact Hv].
  - unfold endElection in E. ok_inv E. injection E as <-. exact Hv.
Qed.

Lemma nofall_true_rises (bs : list bool) :
  nofall (true :: bs) -> rises (true :: bs) = 0%nat.
Proof.
  induction bs as [|b bs IH]; [reflexivity|].
  intros [Hb Hn]. rewrite (Hb eq_refl) in *.
  change (rises (true :: true :: bs)) with (0 + rises (true :: bs))%nat.
  rewrite IH; [reflexivity | exact Hn].
Qed.

Lemma nofall_rises (bs : list bool) : nofall bs -> (rises bs <= 1)%nat.
Proof.
  induction bs as [|b1 bs IH]; [cbn; lia|].
  destruct bs as [|b2 bs]; [cbn; lia|].
  intros [Hb Hn]. specialize (IH Hn).
  destruct b1.
  - rewrite (Hb eq_refl) in *.
    rewrite nofall_true_rises; [lia | split; [reflexivity | exact Hn]].
  - destruct b2.
    + change (rises (false :: true :: bs)) with (1 + rises (true :: bs))%nat.
      rewrite (nofall_true_rises bs Hn). lia.
    + change (rises (false :: false :: bs)) with (0 + rises (false :: bs))%nat.
      lia.
Qed.

Lemma trace_nofall s txs v :
  consistent s -> nofall (map (hasVoted_ v) (trace s txs)).
Proof.
  revert s. induction txs as [|tx txs IH]; intros s I; [exact Logic.I|].
  specialize (IH (step s tx) (consistent_step s tx I)).
  cbn [trace map]. destruct txs as [|tx' txs]; cbn [trace map] in *.
  - split; [|exact Logic.I]. apply step_hasVoted_mono, I.
  - split; [|exact IH]. apply step_hasVoted_mono, I.
Qed.

Lemma step_flags s mc :
  consistent s ->
  (electionStarted s = true -> electionStarted (step s mc) = true) /\
  (electionEnded s = true -> electionEnded (step s mc) = true) /\
  phase_next (phase s) (phase (step s mc)).
Proof.
  intros I. destruct mc as [m c]. unfold step; cbn.
  destruct (exec m c s) as [s'|w] eqn:E; [|unfold phase_next; tauto].
  unfold phase, phase_next. destruct c; cbn in E.
  - unfold addCandidate in E. ok_inv E. injection E as <-. cbn. tauto.
  - unfold registerVoter in E. ok_inv E. injection E as <-. cbn. tauto.
  - unfold startElection in E. ok_inv E. injection E as <-. cbn.
    apply require_Ok, negb_true_iff in Hreq0. rewrite Hreq0.
    destruct (electionEnded s) eqn:He.
    + apply (ended_is_started s I) in He. congruence.
    + tauto.
  - apply vote_Ok in E as (c & _ & _ & _ & _ & _ & ->). cbn. tauto.
  - unfold endElection in E. ok_inv E. injection E as <-. cbn.
    apply electionActive_Ok in Hreq0 as (-> & -> & _). tauto.
Qed.

(** ** Properties of the election state machine *)

Lemma run_consistent s txs : consistent s -> consistent (run s txs).
Proof.
  revert s. induction txs as [|tx txs IH]; intros s I; [exact I|].
  apply IH, consistent_step, I.
Qed.

Lemma deployed_consistent m0 n0 txs : consistent (run (constructor m0 n0) txs).
Proof. apply run_consistent, consistent_constructor. Qed.

Lemma run_flags s txs :
  consistent s ->
  (electionStarted s = true -> electionStarted (run s txs) = true) /\
  (electionEnded s = true -> electionEnded (run s txs) = true) /\
  (phase_rank (phase s) <= phase_rank (phase (run s txs)))%nat.
Proof.
  revert s. induction txs as [|tx txs IH]; intros s I; [cbn; auto|].
  destruct (step_flags s tx I) as (H1 & H2 & H3).
  destruct (IH (step s tx) (consistent_step s tx I)) as (J1 & J2 & J3).
  cbn [run fold_left]. fold (run (step s tx) txs).
  repeat split; auto.
  etransitivity; [|exact J3].
  destruct H3 as [-> | [[-> ->] | [-> ->]]]; cbn; lia.
Qed.

Lemma phase_Created s :
  phase s = Created <-> electionEnded s = false /\ electionStarted s = false.
Proof. unfold phase. destruct (electionEnded s), (electionStarted s); split; intros; try tauto; try discriminate; destruct H; discriminate. Qed.

Lemma phase_Active s :
  phase s = Active <-> electionEnded s = false /\ electionStarted s = true.
Proof. unfold phase. destruct (electionEnded s), (electionStarted s); split; intros; try tauto; try discriminate; destruct H; discriminate. Qed.

Lemma phase_Ended s : phase s = Ended <-> electionEnded s = true.
Proof. unfold phase. destruct (electionEnded s), (electionStarted s); split; intros; try tauto; discriminate. Qed.

(** The counters of [tied_election]. *)
Example counters_of_tied_election :
  totalVotes tied_election = 4 /\
  tally (candidates tied_election) = 4 /\
  voted_count tied_election = 4.
Proof. vm_compute. repeat split; reflexivity. Qed.

(** C2. In every state reached from deployment, [totalVotes] is the sum of
    the candidates' vote counts and also the number of voter records with
    [hasVoted = true]. *)
Theorem tally_consistency (m0 : Msg) (n0 : string) (txs : list (Msg * Call)) :
  let s := run (constructor m0 n0) txs in
  totalVotes s = tally (candidates s) /\ totalVotes s = voted_count s.
Proof.
  intros s. pose proof (deployed_consistent m0 n0 txs) as I.
  split; [apply (total_is_tally _ I) | apply (total_is_voted_count _ I)].
Qed.

(** C3. From any state reached from deployment, no transaction and no
    further sequence of transactions takes [electionStarted] or
    [electionEnded] from [true] back to [false]; one transaction leaves the
    phase where it is or moves it from [Created] to [Active] or from
    [Active] to [Ended]; [startElection] reverts when the phase is not
    [Created] and [endElection] reverts when the phase is not [Active]. *)
Theorem phase_monotonic (m0 : Msg) (n0 : string) (txs more : list (Msg * Call))
    (tx : Msg * Call) (m : Msg) (d : N) :
  let s := run (constructor m0 n0) txs in
  (electionStarted s = true -> electionStarted (run s more) = true) /\
  (electionEnded s = true -> electionEnded (run s more) = true) /\
  (phase_rank (phase s) <= phase_rank (phase (run s more)))%nat /\
  phase_next (phase s) (phase (step s tx)) /\
  (phase s <> Created ->
     startElection m d s = Revert (Error "Only admin can perform this action") \/
     startElection m d s = Revert (Error "Election has already started")) /\
  (phase s <> Active ->
     exists w, endElection m s = Revert w /\
       (w = Error "Only admin can perform this action" \/ ElectionNotActive w)).
Proof.
  intros s. pose proof (deployed_consistent m0 n0 txs) as I. fold s in I.
  destruct (run_flags s more I) as (H1 & H2 & H3).
  destruct (step_flags s tx I) as (_ & _ & H4).
  repeat split; auto.
  - intros Hp. unfold startElection, onlyAdmin.
    destruct (sender m =? admin s); cbn; [right | left; reflexivity].
    destruct (electionStarted s) eqn:Hs; [reflexivity|].
    exfalso. apply Hp, phase_Created. split; [|exact Hs].
    destruct (electionEnded s) eqn:He; [|reflexivity].
    apply (ended_is_started s I) in He. congruence.
  - intros Hp. unfold endElection, onlyAdmin.
    destruct (sender m =? admin s); cbn; [|eexists; split; [reflexivity | left; reflexivity]].
    destruct (electionActive m s) as [[]|w] eqn:E; cbn.
    + exfalso. apply Hp, phase_Active.
      apply electionActive_Ok in E as (? & ? & _). auto.
    + exists w. split; [reflexivity | right]. eapply electionActive_Revert, E.
Qed.

Lemma phase_monotonic_witness :
  electionStarted
    (run started_election [({| sender := 1; timestamp := 120 |}, EndElection)])
  = true /\
  (startElection deployer 5 started_election
     = Revert (Error "Only admin can perform this action") \/
   startElection deployer 5 started_election
     = Revert (Error "Election has already started")).
Proof.
  pose proof (phase_monotonic deployer "Board"
    [({| sender := 1; timestamp := 11 |}, AddCandidate "A" "P" "Q");
     ({| sender := 1; timestamp := 12 |}, RegisterVoter 7);
     ({| sender := 1; timestamp := 100 |}, StartElection 1)]
    [({| sender := 1; timestamp := 120 |}, EndElection)]
    ({| sender := 1; timestamp := 120 |}, EndElection) deployer 5) as H.
  cbv zeta in H. destruct H as (H1 & _ & _ & _ & H5 & _).
  split; [apply H1; reflexivity | apply H5; discriminate].
Defined.

(** C5. [endElection] succeeds exactly when the caller is the administrator,
    the election is started and not ended, and the block time lies in
    [[startTime, endTime]]. When the administrator calls it in the [Active]
    phase after [endTime], it reverts with "Election is not active" and the
    phase stays [Active]. *)
Theorem endElection_guard (m : Msg) (s : Voting) :
  ((exists s', endElection m s = Ok s') <->
     sender m = admin s /\ phase s = Active /\
     startTime s <= timestamp m <= endTime s) /\
  (sender m = admin s -> phase s = Active -> endTime s < timestamp m ->
     endElection m s = Revert (Error "Election is not active") /\
     ElectionNotActive (Error "Election is not active") /\
     phase (step s (m, EndElection)) = Active).
Proof.
  split.
  - rewrite phase_Active. split.
    + intros (s' & H). unfold endElection in H. ok_inv H.
      apply onlyAdmin_Ok in Hreq. apply electionActive_Ok in Hreq0. tauto.
    + intros (Ha & (He & Hs) & Hw). unfold endElection.
      assert (onlyAdmin m s = Ok tt) as -> by (apply onlyAdmin_Ok, Ha).
      assert (electionActive m s = Ok tt) as -> by (apply electionActive_Ok; tauto).
      cbn. eauto.
  - intros Ha Hp Hlate. apply phase_Active in Hp as (He & Hs).
    assert (E : endElection m s = Revert (Error "Election is not active")).
    { unfold endElection.
      assert (onlyAdmin m s = Ok tt) as -> by (apply onlyAdmin_Ok, Ha).
      unfold electionActive. rewrite Hs, He. cbn.
      assert ((timestamp m <=? endTime s) = false) as -> by (apply N.leb_gt, Hlate).
      rewrite andb_false_r. reflexivity. }
    split; [exact E|]. split; [unfold ElectionNotActive; tauto|].
    unfold step; cbn. rewrite E. apply phase_Active. auto.
Qed.

Lemma endElection_guard_witness :
  endElection {| sender := 1; timestamp := 161 |} started_election
    = Revert (Error "Election is not active") /\
  phase (step started_election ({| sender := 1; timestamp := 161 |}, EndElection))
    = Active.
Proof.
  destruct (endElection_guard {| sender := 1; timestamp := 161 |} started_election)
    as (_ & H).
  destruct H as (H1 & _ & H3); [reflexivity | reflexivity | vm_compute; reflexivity |].
  split; [exact H1 | exact H3].
Defined.

(** C8. Whatever the phase, [registerVoter] called by the administrator for
    an address whose record is not registered succeeds and leaves that record
    with [isRegistered = true] and [hasVoted = false]; when [registerVoter]
    reverts, the reason is "Only admin can perform this action" or "Voter is
    already registered". *)
Theorem registerVoter_any_phase (m : Msg) (a : N) (s : Voting) :
  (sender m = admin s -> isRegistered (voter_at s a) = false ->
     exists s', registerVoter m a s = Ok s' /\
       isRegistered (voter_at s' a) = true /\
       hasVoted (voter_at s' a) = false /\
       phase s' = phase s) /\
  (forall w, registerVoter m a s = Revert w ->
     w = Error "Only admin can perform this action" \/
     w = Error "Voter is already registered").
Proof.
  split.
  - intros Ha Hr. unfold registerVoter.
    assert (onlyAdmin m s = Ok tt) as -> by (apply onlyAdmin_Ok, Ha).
    rewrite Hr. cbn. eexists. split; [reflexivity|].
    rewrite voter_at_set_voter. destruct (decide (a = a)); [|congruence].
    cbn. auto.
  - intros w. unfold registerVoter, onlyAdmin.
    destruct (sender m =? admin s); cbn; [|intros [= <-]; tauto].
    destruct (isRegistered (voter_at s a)); cbn; [intros [= <-]; tauto | discriminate].
Qed.

Lemma registerVoter_any_phase_witness :
  (phase created_election = Created /\
   exists s', registerVoter deployer 9 created_election = Ok s' /\
     isRegistered (voter_at s' 9) = true /\ hasVoted (voter_at s' 9) = false /\
     phase s' = phase created_election) /\
  (phase started_election = Active /\
   exists s', registerVoter deployer 9 started_election = Ok s' /\
     isRegistered (voter_at s' 9) = true /\ hasVoted (voter_at s' 9) = false /\
     phase s' = phase started_election) /\
  (phase ended_election = Ended /\
   exists s', registerVoter deployer 9 ended_election = Ok s' /\
     isRegistered (voter_at s' 9) = true /\ hasVoted (voter_at s' 9) = false /\
     phase s' = phase ended_election).
Proof.
  repeat split; try reflexivity.
  - apply (proj1 (registerVoter_any_phase deployer 9 created_election)); reflexivity.
  - apply (proj1 (registerVoter_any_phase deployer 9 started_election)); reflexivity.
  - apply (proj1 (registerVoter_any_phase deployer 9 ended_election)); reflexivity.
Defined.

(** A second [vote] by a voter who has voted, in a consistent state. *)
Lemma vote_again m i s :
  consistent s -> hasVoted_ (sender m) s = true ->
  exists w, vote m i s = Revert w /\
    (electionActive m s = Ok tt -> w = Error "You have already voted") /\
    (forall w', electionActive m s = Revert w' -> w = w' /\ ElectionNotActive w).
Proof.
  unfold hasVoted_. intros I Hv. unfold vote.
  pose proof (voted_is_registered s I _ Hv) as Hr.
  destruct (electionActive m s) as [[]|w] eqn:E; cbn.
  - rewrite Hr, Hv. cbn. eexists. split; [reflexivity|]. split; [auto | discriminate].
  - exists w. split; [reflexivity|]. split; [discriminate|].
    intros w' [= <-]. split; [reflexivity|]. eapply electionActive_Revert, E.
Qed.

(** C1, as the contract has it. For every voter and every sequence of
    transactions from deployment, [hasVoted] of the voter goes from [false]
    to [true] at most once. Once it is [true], every [vote] sent by that
    voter reverts and the storage stays as it was. The reason is "You have
    already voted" when the election is active at the time of the call;
    otherwise it is the reason of the [electionActive] modifier, which runs
    before the body: "Election has not started yet", "Election has already
    ended" or "Election is not active". *)
Theorem single_vote (m0 : Msg) (n0 : string) (txs : list (Msg * Call))
    (v : N) (m : Msg) (i : N) :
  let s := run (constructor m0 n0) txs in
  (rises (map (hasVoted_ v) (trace (constructor m0 n0) txs)) <= 1)%nat /\
  (hasVoted_ v s = true -> sender m = v ->
     exists w, vote m i s = Revert w /\
       step s (m, Vote i) = s /\
       (electionActive m s = Ok tt -> w = Error "You have already voted") /\
       (forall w', electionActive m s = Revert w' ->
          w = w' /\ ElectionNotActive w)).
Proof.
  intros s. split.
  - apply nofall_rises, trace_nofall, consistent_constructor.
  - intros Hv <-. pose proof (deployed_consistent m0 n0 txs) as I. fold s in I.
    destruct (vote_again m i s I Hv) as (w & E & Ha & Hw).
    exists w. split; [exact E|]. split; [|split; assumption].
    unfold step; cbn. rewrite E. reflexivity.
Qed.

Lemma single_vote_witness :
  let m := {| sender := 7; timestamp := 115 |} in
  let s := run started_election [({| sender := 7; timestamp := 110 |}, Vote 0)] in
  hasVoted_ 7 s = true /\
  exists w, vote m 0 s = Revert w /\ step s (m, Vote 0) = s /\
    (electionActive m s = Ok tt -> w = Error "You have already voted") /\
    (forall w', electionActive m s = Revert w' -> w = w' /\ ElectionNotActive w).
Proof.
  split; [reflexivity|].
  apply (proj2 (single_vote deployer "Board"
    [({| sender := 1; timestamp := 11 |}, AddCandidate "A" "P" "Q");
     ({| sender := 1; timestamp := 12 |}, RegisterVoter 7);
     ({| sender := 1; timestamp := 100 |}, StartElection 1);
     ({| sender := 7; timestamp := 110 |}, Vote 0)] 7
    {| sender := 7; timestamp := 115 |} 0)); reflexivity.
Defined.

(** C1 as worded does not hold once the election is over: the voter of
    [ended_election] has voted, and a second [vote] from that voter reverts
    with "Election has already ended", not with "You have already voted". *)
Lemma vote_again_after_end :
  reachable ended_election /\
  hasVoted_ 7 ended_election = true /\
  vote {| sender := 7; timestamp := 125 |} 0 ended_election
    = Revert (Error "Election has already ended") /\
  vote {| sender := 7; timestamp := 125 |} 0 ended_election
    <> Revert (Error "You have already voted").
Proof.
  split; [|split; [reflexivity | split; [reflexivity | discriminate]]].
  unfold ended_election, started_election.
  repeat apply reachable_run. constructor.
Qed.

(** C4. [getResults] reverts with "Election has not ended yet" in every
    state whose phase is not [Ended], and in every state whose phase is
    [Ended] it returns the ids, names and vote counts of all candidates, in
    the order of the candidate array. The results endpoint is gated the same
    way: 403 with that message before the end, 200 with the table after it. *)
Theorem results_gating (now : N) (s : Voting) :
  (phase s <> Ended ->
     getResults s = Revert (Error "Election has not ended yet") /\
     get_results now s =
       {| status := 403; body := ErrorBody "Election has not ended yet" |}) /\
  (phase s = Ended ->
     getResults s =
       Ok (map id (candidates s), map name (candidates s),
           map voteCount (candidates s)) /\
     exists rows,
       get_results now s =
         {| status := 200;
            body := ResultsBody (Js.Number_of_uint (totalVotes s)) rows |}).
Proof.
  unfold phase, get_results, getResults, getElectionStatus.
  destruct (electionEnded s); cbn; split; intros H; try congruence.
  - split; [reflexivity | eexists; reflexivity].
  - split; reflexivity.
  - destruct (electionStarted s); discriminate.
Qed.

Lemma results_gating_witness :
  (getResults started_election = Revert (Error "Election has not ended yet") /\
   get_results 130 started_election =
     {| status := 403; body := ErrorBody "Election has not ended yet" |}) /\
  (getResults ended_election = Ok ([0], ["A"], [1]) /\
   exists rows,
     get_results 130 ended_election =
       {| status := 200;
          body := ResultsBody (Js.Number_of_uint (totalVotes ended_election)) rows |}).
Proof.
  split.
  - apply (proj1 (results_gating 130 started_election)). discriminate.
  - apply (proj2 (results_gating 130 ended_election)). reflexivity.
Defined.

(** ** Input checks live in the facade *)

(** C6, as the code has it. The duration bound is checked by the
    [/api/election/start] handler: a request whose [durationInMinutes] is
    below 1 is answered with 401 when the admin key is missing or wrong and
    otherwise with 400 "Duration must be a positive integer", no transaction
    is sent and the contract storage (hence the phase) is unchanged. The
    contract's [startElection] has no duration check and no failure for it:
    called by the administrator with duration 0 in the [Created] phase with
    at least one candidate, it succeeds, the phase becomes [Active] and
    [endTime = startTime]. *)
Theorem start_duration_checked_by_facade (env : Env) (apiKey : option string)
    (durationInMinutes : Z) (now : N) (s : Voting) (m : Msg) :
  ((durationInMinutes < 1)%Z ->
     post_election_start env apiKey durationInMinutes now s =
       (if adminAuth env apiKey
        then {| status := 400;
                body := ValidationErrors ["Duration must be a positive integer"] |}
        else unauthorized,
        s)) /\
  (sender m = admin s -> phase s = Created -> candidates s <> [] ->
   timestamp m <= UINT_MAX ->
     exists s', startElection m 0 s = Ok s' /\
       phase s' = Active /\ endTime s' = startTime s').
Proof.
  split.
  - intros Hd. unfold post_election_start, validation, isInt_min.
    destruct (adminAuth env apiKey); cbn; [|reflexivity].
    assert ((1 <=? durationInMinutes)%Z = false) as -> by lia.
    cbn. reflexivity.
  - intros Ha Hp Hc Ht. apply phase_Created in Hp as (He & Hs).
    unfold startElection.
    assert (onlyAdmin m s = Ok tt) as -> by (apply onlyAdmin_Ok, Ha).
    rewrite Hs. cbn.
    assert ((0 <? candidates_length s) = true) as ->.
    { apply N.ltb_lt. unfold candidates_length.
      destruct (candidates s); [congruence | cbn; lia]. }
    change (checked_mul 0 minutes) with (Ok (A := N) 0).
    cbn. unfold checked_add. rewrite N.add_0_r.
    assert ((timestamp m <=? UINT_MAX) = true) as -> by (apply N.leb_le, Ht).
    cbn. eexists. split; [reflexivity|]. split; [|reflexivity].
    apply phase_Active. cbn. auto.
Qed.

Lemma start_duration_checked_by_facade_witness :
  post_election_start {| ADMIN_API_KEY := Some "k"; ADMIN_ADDRESS := 1 |}
      (Some "k") 0 100 created_election =
    ({| status := 400;
        body := ValidationErrors ["Duration must be a positive integer"] |},
     created_election) /\
  exists s', startElection {| sender := 1; timestamp := 100 |} 0 created_election
               = Ok s' /\
    phase s' = Active /\ endTime s' = startTime s'.
Proof.
  destruct (start_duration_checked_by_facade
    {| ADMIN_API_KEY := Some "k"; ADMIN_ADDRESS := 1 |} (Some "k") 0 100
    created_election {| sender := 1; timestamp := 100 |}) as (H1 & H2).
  split.
  - apply H1. reflexivity.
  - apply H2; [reflexivity | reflexivity | discriminate | vm_compute; discriminate].
Defined.

(** C6 as worded does not hold on the contract: the administrator
    starts [created_election], which has one candidate, with duration 0; the
    call is accepted and the phase becomes [Active]. *)
Lemma startElection_zero_duration_accepted :
  admin created_election = 1 /\
  phase created_election = Created /\
  length (candidates created_election) = 1%nat /\
  exists s', startElection {| sender := 1; timestamp := 100 |} 0 created_election
               = Ok s' /\
    phase (step created_election
             ({| sender := 1; timestamp := 100 |}, StartElection 0)) = Active /\
    startTime s' = 100 /\ endTime s' = 100.
Proof.
  repeat split; try reflexivity. eexists. repeat split; reflexivity.
Qed.




(** C10. In every state reached from deployment, the status query for a
    well-formed address whose record is not registered answers 200 with
    [isRegistered = false], [hasVoted = false] and [votedFor = null]. For
    every well-formed address the answer is 200 and its [votedFor] is [null]
    exactly when its [hasVoted] is [false]. *)
Theorem unregistered_voter_status (isAddress : string -> bool)
    (toAddress : string -> N) (m0 : Msg) (n0 : string)
    (txs : list (Msg * Call)) (a : string) :
  let s := run (constructor m0 n0) txs in
  isAddress a = true ->
  (isRegistered (voter_at s (toAddress a)) = false ->
     get_voter_status isAddress toAddress a s =
       {| status := 200; body := VoterStatusBody a false false None |}) /\
  (exists r h v,
     get_voter_status isAddress toAddress a s =
       {| status := 200; body := VoterStatusBody a r h v |} /\
     (v = None <-> h = false)).
Proof.
  intros s Ha. pose proof (deployed_consistent m0 n0 txs) as I. fold s in I.
  unfold get_voter_status, voters_, hasVoted_. rewrite Ha. cbn. split.
  - intros Hr. rewrite Hr.
    destruct (hasVoted (voter_at s (toAddress a))) eqn:Hv; [|reflexivity].
    apply (voted_is_registered s I) in Hv. congruence.
  - do 3 eexists. split; [reflexivity|].
    destruct (hasVoted (voter_at s (toAddress a))); split; congruence.
Qed.

Lemma unregistered_voter_status_witness :
  get_voter_status (fun a => String.eqb a "0x09") (fun _ => 9) "0x09" ended_election =
    {| status := 200; body := VoterStatusBody "0x09" false false None |}.
Proof.
  apply (proj1 (unregistered_voter_status (fun a => String.eqb a "0x09") (fun _ => 9)
    deployer "Board"
    [({| sender := 1; timestamp := 11 |}, AddCandidate "A" "P" "Q");
     ({| sender := 1; timestamp := 12 |}, RegisterVoter 7);
     ({| sender := 1; timestamp := 100 |}, StartElection 1);
     ({| sender := 7; timestamp := 110 |}, Vote 0);
     ({| sender := 1; timestamp := 120 |}, EndElection)] "0x09" eq_refl)).
  reflexivity.
Defined.

(** ** Facts about binary64 rounding *)

Module JsFacts.
Import Js.
Local Open Scope Z_scope.

Lemma fexp_eq e : fexp prec emax e = Z.max (e - 53) emin.
Proof. reflexivity. Qed.

Lemma digits2_size p : digits2_pos p = Pos.size p.
Proof. induction p; cbn; congruence. Qed.

Lemma Zdigits2_log2 m : 0 < m -> Zdigits2 m = Z.log2 m + 1.
Proof.
  destruct m as [|p|p]; try lia. intros _. cbn [Zdigits2].
  rewrite digits2_size. destruct p; cbn; lia.
Qed.

Lemma shr_1_m mrs : 0 <= shr_m mrs -> shr_m (shr_1 mrs) = shr_m mrs / 2.
Proof.
  destruct mrs as [m r s]. cbn [shr_m]. intros Hm.
  destruct m as [|p|p]; [reflexivity | | lia].
  destruct p; cbn [shr_1 shr_m].
  - rewrite Pos2Z.inj_xI. apply Z.div_unique with (r := 1); lia.
  - rewrite Pos2Z.inj_xO. apply Z.div_unique with (r := 0); lia.
  - reflexivity.
Qed.

Lemma pow2_xO p : 2 ^ Z.pos p~0 = 2 ^ Z.pos p * 2 ^ Z.pos p.
Proof. rewrite <- Z.pow_add_r by lia. f_equal. lia. Qed.

Lemma pow2_xI p : 2 ^ Z.pos p~1 = 2 * (2 ^ Z.pos p * 2 ^ Z.pos p).
Proof.
  replace (Z.pos p~1) with (1 + (Z.pos p + Z.pos p)) by lia.
  rewrite !Z.pow_add_r by lia. reflexivity.
Qed.

Lemma iter_shr_m p : forall mrs, 0 <= shr_m mrs ->
  shr_m (SpecFloat.iter_pos shr_1 p mrs) = shr_m mrs / 2 ^ Z.pos p.
Proof.
  induction p as [p IH|p IH|]; intros mrs Hm; cbn [SpecFloat.iter_pos].
  - assert (H1 : 0 <= shr_m (shr_1 mrs)) by (rewrite shr_1_m by lia; apply Z.div_pos; lia).
    assert (H2 : 0 <= shr_m (SpecFloat.iter_pos shr_1 p (shr_1 mrs)))
      by (rewrite IH by lia; apply Z.div_pos; lia).
    rewrite IH, IH, shr_1_m by lia.
    rewrite !Z.div_div by lia. rewrite pow2_xI. reflexivity.
  - assert (H2 : 0 <= shr_m (SpecFloat.iter_pos shr_1 p mrs))
      by (rewrite IH by lia; apply Z.div_pos; lia).
    rewrite IH, IH by lia. rewrite Z.div_div by lia. rewrite pow2_xO. reflexivity.
  - rewrite shr_1_m by lia. reflexivity.
Qed.

Lemma shr_record_of_loc_m m l : shr_m (shr_record_of_loc m l) = m.
Proof. destruct l as [|[]]; reflexivity. Qed.

(** One rounding shift: a positive mantissa stays positive, the exponent
    does not decrease, and the position of the leading bit is kept. *)
Lemma shr_fexp_pos m e l :
  0 < m -> emin <= e ->
  0 < shr_m (fst (shr_fexp prec emax m e l)) /\
  snd (shr_fexp prec emax m e l) = Z.max e (fexp prec emax (Zdigits2 m + e)) /\
  Zdigits2 (shr_m (fst (shr_fexp prec emax m e l))) + snd (shr_fexp prec emax m e l)
    = Zdigits2 m + e.
Proof.
  intros Hm He. unfold shr_fexp, shr. rewrite fexp_eq.
  pose proof (Z.log2_nonneg m) as Hl.
  pose proof (Z.log2_spec m Hm) as [Hlo Hhi].
  rewrite (Zdigits2_log2 m Hm).
  destruct (Z.max (Z.log2 m + 1 + e - 53) emin - e) as [|n|n] eqn:En;
    cbn [fst snd]; rewrite ?shr_record_of_loc_m.
  - repeat split; [lia | lia | rewrite Zdigits2_log2 by lia; lia].
  - rewrite iter_shr_m by (rewrite shr_record_of_loc_m; lia).
    rewrite shr_record_of_loc_m.
    assert (Hn : Z.pos n = Z.log2 m + 1 - 53) by lia.
    rewrite <- Z.shiftr_div_pow2 by lia.
    assert (Hs : 0 < Z.shiftr m (Z.pos n)).
    { rewrite Z.shiftr_div_pow2 by lia.
      apply Z.div_str_pos. split; [lia|].
      etransitivity; [|exact Hlo]. apply Z.pow_le_mono_r; lia. }
    repeat split; [exact Hs | lia |].
    rewrite Zdigits2_log2 by exact Hs.
    rewrite Z.log2_shiftr by lia. lia.
  - repeat split; [lia | lia | rewrite Zdigits2_log2 by lia; lia].
Qed.

Lemma round_nearest_even_bounds m l :
  m <= round_nearest_even m l <= m + 1.
Proof.
  destruct l as [|[]]; cbn; try lia. destruct (Z.even m); lia.
Qed.

Lemma Zdigits2_succ m : 0 < m -> Zdigits2 (m + 1) <= Zdigits2 m + 1.
Proof.
  intros Hm. rewrite !Zdigits2_log2 by lia.
  pose proof (Z.log2_spec m Hm) as [Hlo Hhi].
  assert (Z.log2 (m + 1) < Z.log2 m + 2); [|lia].
  apply Z.log2_lt_pow2; [lia|].
  replace (Z.log2 m + 2) with (Z.succ (Z.log2 m + 1)) by lia.
  rewrite Z.pow_succ_r by (pose proof (Z.log2_nonneg m); lia). lia.
Qed.

Lemma Zdigits2_mono a b : 0 < a -> a <= b -> Zdigits2 a <= Zdigits2 b.
Proof.
  intros Ha Hab. rewrite !Zdigits2_log2 by lia.
  pose proof (Z.log2_le_mono a b Hab). lia.
Qed.

(** Rounding a positive mantissa at an exponent not below [emin]: the result
    is positive, and finite unless the exponent overflows; the exponent does
    not decrease and the leading bit moves up by at most one place. *)
Lemma binary_round_aux_pos m e l :
  0 < m -> emin <= e ->
  exists m' e',
    (e <= e' /\ e' <= Z.max (e + 1) (Zdigits2 m + e - 52)) /\
    (Zdigits2 m + e <= Zdigits2 (Z.pos m') + e' <= Zdigits2 m + e + 1) /\
    binary_round_aux prec emax false m e l =
      if e' <=? emax - prec then S754_finite false m' e' else S754_infinity false.
Proof.
  intros Hm He. unfold binary_round_aux.
  destruct (shr_fexp_pos m e l Hm He) as (P1 & E1 & D1).
  destruct (shr_fexp prec emax m e l) as [mrs1 e1]. cbn [fst snd] in *.
  pose proof (round_nearest_even_bounds (shr_m mrs1) (loc_of_shr_record mrs1)) as Hr.
  set (m1 := round_nearest_even (shr_m mrs1) (loc_of_shr_record mrs1)) in *.
  assert (Hm1 : 0 < m1) by lia.
  assert (He1 : emin <= e1) by lia.
  destruct (shr_fexp_pos m1 e1 loc_Exact Hm1 He1) as (P2 & E2 & D2).
  destruct (shr_fexp prec emax m1 e1 loc_Exact) as [mrs2 e2]. cbn [fst snd] in *.
  destruct (shr_m mrs2) as [|m2|m2] eqn:Em2; try lia.
  exists m2, e2.
  assert (Zdigits2 m1 <= Zdigits2 (shr_m mrs1) + 1).
  { etransitivity; [apply (Zdigits2_mono m1 (shr_m mrs1 + 1)); lia|].
    apply Zdigits2_succ; lia. }
  assert (Zdigits2 (shr_m mrs1) <= Zdigits2 m1) by (apply Zdigits2_mono; lia).
  rewrite fexp_eq in *. unfold emin in *.
  split; [lia|]. split; [lia | reflexivity].
Qed.

Lemma iter_xO m d : Z.pos (Pos.iter xO m d) = Z.pos m * 2 ^ Z.pos d.
Proof.
  induction d as [|d IH] using Pos.peano_ind.
  - cbn. lia.
  - rewrite Pos.iter_succ, Pos2Z.inj_xO, IH, Pos2Z.inj_succ, Z.pow_succ_r by lia. lia.
Qed.

Lemma shl_align_spec m e e' :
  Z.pos (fst (shl_align m e e')) = Z.pos m * 2 ^ (e - Z.min e e') /\
  snd (shl_align m e e') = Z.min e e'.
Proof.
  unfold shl_align. destruct (e' - e) as [|d|d] eqn:Ed; cbn [fst snd].
  - replace (Z.min e e') with e by lia. rewrite Z.sub_diag. lia.
  - replace (Z.min e e') with e by lia. rewrite Z.sub_diag. lia.
  - replace (Z.min e e') with e' by lia. rewrite iter_xO.
    replace (e - e') with (Z.pos d) by lia. lia.
Qed.

Lemma Zdigits2_shl m k : 0 < m -> 0 <= k -> Zdigits2 (m * 2 ^ k) = Zdigits2 m + k.
Proof.
  intros Hm Hk. assert (0 < m * 2 ^ k) by (apply Z.mul_pos_pos; lia).
  rewrite !Zdigits2_log2 by lia. rewrite Z.log2_mul_pow2 by lia. lia.
Qed.





(** A mantissa of exactly 53 bits at an exponent in range is kept as it is. *)
Lemma binary_round_aux_exact (mz : positive) (ez : Z) :
  Zdigits2 (Z.pos mz) = 53 -> emin <= ez <= emax - prec ->
  binary_round_aux prec emax false (Z.pos mz) ez loc_Exact = S754_finite false mz ez.
Proof.
  intros Hd He. unfold binary_round_aux, shr_fexp.
  rewrite Hd, fexp_eq.
  replace (Z.max (53 + ez - 53) emin - ez) with 0 by lia.
  cbn [shr shr_record_of_loc shr_m loc_of_shr_record round_nearest_even].
  rewrite Hd, fexp_eq.
  replace (Z.max (53 + ez - 53) emin - ez) with 0 by lia.
  cbn [shr shr_record_of_loc shr_m].
  destruct (Z.leb_spec ez (emax - prec)); [reflexivity | lia].
Qed.

(** Integers below [2^53] are doubles: [Number] keeps their value. *)
Lemma Number_safe n :
  (n < 2 ^ 53)%N -> ulps (Number_of_uint n) = Z.of_N n * 2 ^ 1074.
Proof.
  intros Hn. destruct n as [|p]; [reflexivity|].
  unfold Number_of_uint, binary_normalize, binary_round. cbn [Z.of_N].
  assert (Hd : 1 <= Zdigits2 (Z.pos p) <= 53).
  { rewrite Zdigits2_log2 by lia. pose proof (Z.log2_nonneg (Z.pos p)).
    assert (Z.log2 (Z.pos p) < 53); [|lia]. apply Z.log2_lt_pow2; lia. }
  change (Z.pos (digits2_pos p)) with (Zdigits2 (Z.pos p)).
  destruct (shl_align_spec p 0 (fexp prec emax (Zdigits2 (Z.pos p) + 0))) as (Hv & Hx).
  destruct (shl_align p 0 (fexp prec emax (Zdigits2 (Z.pos p) + 0))) as [mz ez].
  cbn [fst snd] in *. rewrite fexp_eq in *. unfold emin in *.
  replace (Z.min 0 (Z.max (Zdigits2 (Z.pos p) + 0 - 53) (-1074)))
    with (Zdigits2 (Z.pos p) - 53) in * by lia.
  rewrite binary_round_aux_exact.
  - cbn [ulps cond_Zopp]. rewrite Hv. subst ez. unfold emin.
    rewrite <- Z.mul_assoc, <- Z.pow_add_r by lia. f_equal. f_equal. lia.
  - rewrite Hv, Zdigits2_shl by lia. lia.
  - unfold emin, emax, prec. lia.
Qed.

Lemma Zdigits2_bounds m : 0 < m -> 2 ^ (Zdigits2 m - 1) <= m < 2 ^ Zdigits2 m.
Proof.
  intros Hm. rewrite Zdigits2_log2 by lia.
  replace (Z.log2 m + 1 - 1) with (Z.log2 m) by lia.
  replace (Z.log2 m + 1) with (Z.succ (Z.log2 m)) by lia.
  apply Z.log2_spec, Hm.
Qed.

Lemma Zdigits2_le_pow2 m k : 0 < m -> m < 2 ^ k -> Zdigits2 m <= k.
Proof.
  intros Hm Hk. rewrite Zdigits2_log2 by lia.
  assert (Z.log2 m < k); [|lia].
  destruct (Z.le_gt_cases k 0) as [H0|H0].
  - assert (2 ^ k <= 1); [|lia].
    destruct (Z.eq_dec k 0) as [->|]; [cbn; lia|].
    rewrite Z.pow_neg_r by lia. lia.
  - apply Z.log2_lt_pow2; lia.
Qed.

(** The quotient of two positive doubles whose exponents and leading bits
    are in the range of ledger integers. *)
Lemma div_pos m1 e1 m2 e2 :
  -52 <= e1 <= 204 -> -52 <= e2 <= 204 ->
  1 <= Zdigits2 (Z.pos m1) + e1 <= 257 ->
  1 <= Zdigits2 (Z.pos m2) + e2 <= 257 ->
  exists m e,
    div (S754_finite false m1 e1) (S754_finite false m2 e2) = S754_finite false m e /\
    -400 <= e <= 400 /\
    Zdigits2 (Z.pos m) + e <=
      (Zdigits2 (Z.pos m1) + e1) - (Zdigits2 (Z.pos m2) + e2) + 2.
Proof.
  intros He1 He2 Hp1 Hp2. unfold div. cbn [SFdiv xorb].
  unfold SFdiv_core_binary. rewrite fexp_eq.
  set (d1 := Zdigits2 (Z.pos m1)) in *. set (d2 := Zdigits2 (Z.pos m2)) in *.
  set (e' := Z.min (Z.max (d1 + e1 - (d2 + e2) - 53) emin) (e1 - e2)).
  assert (He' : e' = Z.min (d1 + e1 - (d2 + e2) - 53) (e1 - e2)) by (unfold e', emin; lia).
  set (s := e1 - e2 - e').
  assert (Hs : 0 <= s /\ d2 - d1 + 53 <= s) by lia.
  set (m' := match s with Z.pos _ => Z.shiftl (Z.pos m1) s | 0 => Z.pos m1 | Z.neg _ => 0 end).
  assert (Hm' : m' = Z.pos m1 * 2 ^ s).
  { unfold m'. destruct s as [|sp|sp] eqn:Es; [lia | | lia].
    rewrite Z.shiftl_mul_pow2 by lia. reflexivity. }
  pose proof (Zdigits2_bounds (Z.pos m1) eq_refl) as B1. fold d1 in B1.
  pose proof (Zdigits2_bounds (Z.pos m2) eq_refl) as B2. fold d2 in B2.
  assert (Hd1 : 1 <= d1) by (unfold d1; rewrite Zdigits2_log2 by lia; pose proof (Z.log2_nonneg (Z.pos m1)); lia).
  assert (Hd2 : 1 <= d2) by (unfold d2; rewrite Zdigits2_log2 by lia; pose proof (Z.log2_nonneg (Z.pos m2)); lia).
  assert (Hlo : 2 ^ (d1 - 1 + s) <= m').
  { rewrite Hm', Z.pow_add_r by lia. apply Z.mul_le_mono_nonneg_r; [apply Z.pow_nonneg|]; lia. }
  assert (Hhi : m' < 2 ^ (d1 + s)).
  { rewrite Hm', Z.pow_add_r by lia. apply Z.mul_lt_mono_pos_r; [apply Z.pow_pos_nonneg|]; lia. }
  pose proof (Z.div_eucl_eq m' (Z.pos m2)) as Heq.
  pose proof (Z.mod_pos_bound m' (Z.pos m2)) as Hmod.
  unfold Z.modulo in Hmod.
  destruct (Z.div_eucl m' (Z.pos m2)) as [q r].
  specialize (Heq ltac:(lia)). specialize (Hmod ltac:(lia)).
  assert (Hq : 0 < q).
  { assert (Z.pos m2 <= m'); [|nia].
    etransitivity; [|exact Hlo]. etransitivity; [apply Z.lt_le_incl, B2|].
    apply Z.pow_le_mono_r; lia. }
  assert (Hqd : Zdigits2 q <= d1 + s - d2 + 1).
  { apply Zdigits2_le_pow2; [exact Hq|].
    assert (q * 2 ^ (d2 - 1) < 2 ^ (d1 + s - d2 + 1) * 2 ^ (d2 - 1)).
    { rewrite <- Z.pow_add_r by lia.
      replace (d1 + s - d2 + 1 + (d2 - 1)) with (d1 + s) by lia.
      assert (q * 2 ^ (d2 - 1) <= q * Z.pos m2) by (apply Z.mul_le_mono_nonneg_l; lia).
      lia. }
    eapply Z.mul_lt_mono_pos_r; [|eassumption]. apply Z.pow_pos_nonneg; lia. }
  destruct (binary_round_aux_pos q e' (new_location (Z.pos m2) r) Hq)
    as (m & e & H1 & H2 & ->); [unfold emin; lia|].
  exists m, e.
  destruct (Z.leb_spec e (emax - prec)) as [_|Hbad];
    [|unfold emax, prec in Hbad; lia].
  split; [reflexivity|]. split; lia.
Qed.





End JsFacts.

(** ** Facts about [Array.prototype.sort] *)

Section SortFacts.
Context {A : Type} (comparefn : A -> A -> spec_float) (key : A -> Z).









End SortFacts.

(** ** The results table *)








(** The table of [tied_election]: B first, then A and C, which tie and stay
    in the order of the candidate array. *)
Example results_of_tied_election :
  get_results 300 tied_election =
    {| status := 200;
       body := ResultsBody (Js.Number_of_uint 4)
         [{| row_id := Js.Number_of_uint 1; row_name := "B";
             row_voteCount := Js.Number_of_uint 2; row_percentage := Some "50.00" |};
          {| row_id := Js.Number_of_uint 0; row_name := "A";
             row_voteCount := Js.Number_of_uint 1; row_percentage := Some "25.00" |};
          {| row_id := Js.Number_of_uint 2; row_name := "C";
             row_voteCount := Js.Number_of_uint 1; row_percentage := Some "25.00" |}] |}.
Proof. vm_compute. reflexivity. Qed.

(** The table of the scenario with one vote for A and none for B. *)
Example results_of_ended_election :
  get_results 300
    (run (constructor deployer "Board")
       [({| sender := 1; timestamp := 11 |}, AddCandidate "A" "P" "Q");
        ({| sender := 1; timestamp := 12 |}, AddCandidate "B" "P" "Q");
        ({| sender := 1; timestamp := 14 |}, RegisterVoter 7);
        ({| sender := 1; timestamp := 100 |}, StartElection 60);
        ({| sender := 7; timestamp := 110 |}, Vote 0);
        ({| sender := 7; timestamp := 111 |}, Vote 0);
        ({| sender := 1; timestamp := 200 |}, EndElection)]) =
    {| status := 200;
       body := ResultsBody (Js.Number_of_uint 1)
         [{| row_id := Js.Number_of_uint 0; row_name := "A";
             row_voteCount := Js.Number_of_uint 1; row_percentage := Some "100.00" |};
          {| row_id := Js.Number_of_uint 1; row_name := "B";
             row_voteCount := Js.Number_of_uint 0; row_percentage := Some "0.00" |}] |}.
Proof. vm_compute. reflexivity. Qed.

(** The percentages of the documented example: 5 and 3 votes of 8. *)
Example percentages_of_five_and_three :
  row_percentage (formatRow 8 0 "Candidate A" 5) = Some "62.50" /\
  row_percentage (formatRow 8 1 "Candidate B" 3) = Some "37.50".
Proof. vm_compute. split; reflexivity. Qed.

(** The quotient is rounded to a double before it is multiplied by 100: 23
    votes of 160 show as 14.37, where 23 / 160 * 100 is 14.375 exactly. *)
Example percentage_of_23_of_160 :
  row_percentage (formatRow 160 0 "Candidate A" 23) = Some "14.37".
Proof. vm_compute. reflexivity. Qed.

(** ** The shape of a successful transaction *)

Lemma checked_mul_Ok a b c :
  checked_mul a b = Ok c -> c = a * b /\ a * b <= UINT_MAX.
Proof.
  unfold checked_mul. destruct (N.leb_spec (a * b) UINT_MAX); [|discriminate].
  intros [= <-]. auto.
Qed.

Lemma addCandidate_Ok m n p q s s' :
  addCandidate m n p q s = Ok s' <->
  sender m = admin s /\ electionStarted s = false /\
  s' = set_candidates s
         (candidates s ++
            [{| id := candidates_length s; name := n; party := p;
                proposal := q; voteCount := 0 |}]).
Proof.
  unfold addCandidate, onlyAdmin. rewrite <- (N.eqb_eq (sender m)).
  destruct (sender m =? admin s), (electionStarted s); cbn;
    split; try (intros (? & ? & ?)); try discriminate; try congruence.
  intros [= <-]. auto.
Qed.

Lemma registerVoter_Ok m a s s' :
  registerVoter m a s = Ok s' <->
  sender m = admin s /\ isRegistered (voter_at s a) = false /\
  s' = set_voter s a
         {| hasVoted := false;
            votedCandidateId := votedCandidateId (voter_at s a);
            isRegistered := true |}.
Proof.
  unfold registerVoter, onlyAdmin. rewrite <- (N.eqb_eq (sender m)).
  destruct (sender m =? admin s), (isRegistered (voter_at s a)); cbn;
    split; try (intros (? & ? & ?)); try discriminate; try congruence.
  intros [= <-]. auto.
Qed.

Lemma endElection_Ok m s s' :
  endElection m s = Ok s' <->
  sender m = admin s /\
  (electionStarted s = true /\ electionEnded s = false /\
   startTime s <= timestamp m <= endTime s) /\
  s' = {| admin := admin s; electionName := electionName s;
          startTime := startTime s; endTime := endTime s;
          electionStarted := electionStarted s; electionEnded := true;
          candidates := candidates s; voters := voters s;
          totalVotes := totalVotes s |}.
Proof.
  unfold endElection. split.
  - intros H. ok_inv H. apply onlyAdmin_Ok in Hreq. apply electionActive_Ok in Hreq0.
    injection H as <-. auto.
  - intros (Ha & Hact & ->).
    assert (onlyAdmin m s = Ok tt) as -> by (apply onlyAdmin_Ok, Ha).
    assert (electionActive m s = Ok tt) as -> by (apply electionActive_Ok, Hact).
    reflexivity.
Qed.

(** [startElection] succeeds exactly when the administrator calls it before
    the start, with a candidate registered and an end time that fits a
    [uint]; the window then runs from the block time for [60 * d] seconds. *)
Lemma startElection_Ok m d s s' :
  startElection m d s = Ok s' <->
  sender m = admin s /\ electionStarted s = false /\ candidates s <> [] /\
  timestamp m + d * 60 <= UINT_MAX /\
  s' = {| admin := admin s; electionName := electionName s;
          startTime := timestamp m; endTime := timestamp m + d * 60;
          electionStarted := true; electionEnded := electionEnded s;
          candidates := candidates s; voters := voters s;
          totalVotes := totalVotes s |}.
Proof.
  assert (Hlen : (0 <? candidates_length s) = true <-> candidates s <> []).
  { unfold candidates_length. rewrite N.ltb_lt.
    destruct (candidates s); cbn; split; intros; try lia; congruence. }
  unfold startElection, minutes. split.
  - intros H. ok_inv H. apply onlyAdmin_Ok in Hreq.
    apply require_Ok, negb_true_iff in Hreq0. apply require_Ok, Hlen in Hreq1.
    apply checked_mul_Ok in Hreq2 as (-> & _).
    apply checked_add_Ok in Hreq3 as (-> & Hmax).
    injection H as <-. auto 10.
  - intros (Ha & Hs & Hc & Hmax & ->).
    assert (onlyAdmin m s = Ok tt) as -> by (apply onlyAdmin_Ok, Ha).
    rewrite Hs. apply Hlen in Hc. rewrite Hc. cbn.
    unfold checked_mul. destruct (N.leb_spec (d * 60) UINT_MAX) as [_|Hbad]; [|lia].
    cbn. unfold checked_add.
    destruct (N.leb_spec (timestamp m + d * 60) UINT_MAX) as [_|Hbad]; [|lia].
    reflexivity.
Qed.

(** ** More invariants of reachable states *)

Lemma votes_for_set_unvoted s a v i :
  hasVoted v = false -> hasVoted (voter_at s a) = false ->
  votes_for (set_voter s a v) i = votes_for s i.
Proof.
  intros Hv Ha. unfold votes_for, set_voter; cbn.
  rewrite map_filter_insert_not'; [reflexivity | cbn; intros [? _]; congruence |].
  intros y Hy. cbn. unfold voter_at in Ha. rewrite Hy in Ha. cbn in Ha.
  intros [? _]. congruence.
Qed.

Lemma votes_for_set_voted s a v i :
  hasVoted v = true -> hasVoted (voter_at s a) = false ->
  votes_for (set_voter s a v) i =
    votes_for s i + (if votedCandidateId v =? i then 1 else 0).
Proof.
  intros Hv Ha. unfold votes_for, set_voter; cbn.
  assert (Hnone : filter (fun kv : N * Voter =>
                     hasVoted kv.2 = true /\ votedCandidateId kv.2 = i)
                    (voters s) !! a = None).
  { apply map_lookup_filter_None. unfold voter_at in Ha.
    destruct (voters s !! a) as [y|]; [right | left; reflexivity].
    intros x [= <-]. cbn in *. intros [? _]. congruence. }
  destruct (N.eqb_spec (votedCandidateId v) i) as [E|E].
  - rewrite map_filter_insert_True by (cbn; auto).
    rewrite map_size_insert_None by exact Hnone. lia.
  - rewrite map_filter_insert_not'; [lia | cbn; intros [_ ?]; congruence |].
    intros y Hy. cbn. unfold voter_at in Ha. rewrite Hy in Ha. cbn in Ha.
    intros [? _]. congruence.
Qed.

Lemma votes_for_none s i :
  (forall a, hasVoted (voter_at s a) = true -> votedCandidateId (voter_at s a) <> i) ->
  votes_for s i = 0.
Proof.
  intros H. unfold votes_for.
  replace (filter _ (voters s)) with (∅ : gmap N Voter); [reflexivity|].
  symmetry. apply map_empty. intros a. apply map_lookup_filter_None.
  destruct (voters s !! a) as [v|] eqn:Hav; [right | left; reflexivity].
  intros x [= <-] [Hv Hi]. cbn in *.
  apply (H a); unfold voter_at; rewrite Hav; auto.
Qed.

Lemma well_formed_constructor m n : well_formed (constructor m n).
Proof.
  split; cbn; try discriminate; intros; auto.
Qed.

Lemma candidates_length_lookup s i c :
  candidates s !! i = Some c -> N.of_nat i < candidates_length s.
Proof.
  intros H. apply lookup_lt_Some in H. unfold candidates_length. lia.
Qed.

Lemma voter_at_set_candidates s cs a :
  voter_at (set_candidates s cs) a = voter_at s a.
Proof. reflexivity. Qed.

Lemma well_formed_exec m c s s' :
  consistent s -> well_formed s -> exec m c s = Ok s' -> well_formed s'.
Proof.
  intros I [W1 W2 W3 W4 W5] E. destruct c; cbn in E.
  - apply addCandidate_Ok in E as (_ & Hs & ->). split; cbn; auto.
    + intros i c Hc. apply lookup_app_Some in Hc as [Hc | [Hlen Hc]]; [eauto|].
      apply list_lookup_singleton_Some in Hc as [Hi <-]. cbn.
      unfold candidates_length. lia.
    + intros i c Hc. apply lookup_app_Some in Hc as [Hc | [Hlen Hc]].
      * apply (W2 i c Hc).
      * apply list_lookup_singleton_Some in Hc as [Hi <-]. cbn.
        symmetry. apply votes_for_none. intros a Hv.
        rewrite voter_at_set_candidates in *.
        specialize (W3 a Hv). unfold candidates_length in W3. lia.
    + intros a Hv. rewrite voter_at_set_candidates in *.
      specialize (W3 a Hv). unfold candidates_length in *. cbn.
      rewrite length_app. cbn. lia.
  - apply registerVoter_Ok in E as (_ & Hr & ->).
    assert (Ha : hasVoted (voter_at s _voter) = false).
    { destruct (hasVoted (voter_at s _voter)) eqn:Hv; [|reflexivity].
      apply (voted_is_registered s I) in Hv. congruence. }
    split; cbn; auto.
    + intros i c Hc. rewrite (W2 i c Hc). symmetry.
      apply votes_for_set_unvoted; auto.
    + intros a. rewrite voter_at_set_voter.
      destruct (decide (_voter = a)); cbn; [discriminate | apply W3].
  - apply startElection_Ok in E as (_ & Hs & _ & _ & ->). split; cbn; auto.
    + lia.
    + discriminate.
  - apply vote_Ok in E as (c & Hact & Hreg & Hnv & Hc & Hmax & ->).
    split; cbn; auto.
    + intros j d Hd. destruct (decide (N.to_nat _candidateId = j)) as [<-|Hne].
      * rewrite list_lookup_insert_eq in Hd by (eapply lookup_lt_Some, Hc).
        injection Hd as <-. cbn. apply (W1 _ _ Hc).
      * rewrite list_lookup_insert_ne in Hd by exact Hne. eauto.
    + intros j d Hd.
      change (voteCount d =
              votes_for (set_voter s (sender m)
                {| hasVoted := true; votedCandidateId := _candidateId;
                   isRegistered := isRegistered (voter_at s (sender m)) |})
                (N.of_nat j)).
      rewrite votes_for_set_voted by auto. cbn.
      destruct (decide (N.to_nat _candidateId = j)) as [<-|Hne].
      * rewrite list_lookup_insert_eq in Hd by (eapply lookup_lt_Some, Hc).
        injection Hd as <-. cbn. rewrite (W2 _ _ Hc), N2Nat.id, N.eqb_refl. reflexivity.
      * rewrite list_lookup_insert_ne in Hd by exact Hne.
        rewrite (W2 _ _ Hd).
        destruct (N.eqb_spec _candidateId (N.of_nat j)) as [->|_]; [|lia].
        rewrite Nat2N.id in Hne. congruence.
    + intros a. unfold voter_at, candidates_length; cbn.
      rewrite lookup_insert, length_insert.
      destruct (decide (sender m = a)); cbn.
      * intros _. apply candidates_length_lookup in Hc.
        unfold candidates_length in Hc. lia.
      * apply (W3 a).
  - apply endElection_Ok in E as (_ & _ & ->). split; cbn; auto.
Qed.

Lemma well_formed_step s tx : consistent s -> well_formed s -> well_formed (step s tx).
Proof.
  intros I W. unfold step. destruct (exec tx.1 tx.2 s) as [s'|w] eqn:E; [|exact W].
  eapply well_formed_exec; eauto.
Qed.

Lemma deployed_well_formed m0 n0 txs : well_formed (run (constructor m0 n0) txs).
Proof.
  assert (H : forall s, consistent s -> well_formed s -> well_formed (run s txs)).
  { induction txs as [|tx txs IH]; intros s I W; [exact W|].
    apply IH; [apply consistent_step, I | apply well_formed_step; assumption]. }
  apply H; [apply consistent_constructor | apply well_formed_constructor].
Qed.

(** ** What transactions never undo *)

Lemma step_isRegistered_mono s tx a :
  isRegistered (voter_at s a) = true ->
  isRegistered (voter_at (step s tx) a) = true.
Proof.
  intros Hr. destruct tx as [m c]. unfold step; cbn.
  destruct (exec m c s) as [s'|w] eqn:E; [|exact Hr].
  destruct c; cbn in E.
  - apply addCandidate_Ok in E as (_ & _ & ->). exact Hr.
  - apply registerVoter_Ok in E as (_ & _ & ->).
    rewrite voter_at_set_voter. destruct (decide (_voter = a)); [reflexivity | exact Hr].
  - apply startElection_Ok in E as (_ & _ & _ & _ & ->). exact Hr.
  - apply vote_Ok in E as (c & _ & Hreg & _ & _ & _ & ->).
    change (isRegistered (voter_at (set_voter s (sender m)
              {| hasVoted := true; votedCandidateId := _candidateId;
                 isRegistered := isRegistered (voter_at s (sender m)) |}) a) = true).
    rewrite voter_at_set_voter.
    destruct (decide (sender m = a)); [exact Hreg | exact Hr].
  - apply endElection_Ok in E as (_ & _ & ->). exact Hr.
Qed.

(** X1. Registration is for good: once the record of an address has
    [isRegistered = true], no sequence of transactions sets it back. *)
Theorem registered_forever (s : Voting) (more : list (Msg * Call)) (a : N) :
  isRegistered (voter_at s a) = true ->
  isRegistered (voter_at (run s more) a) = true.
Proof.
  revert s. induction more as [|tx more IH]; intros s H; [exact H|].
  apply IH, step_isRegistered_mono, H.
Qed.

Lemma registered_forever_witness :
  isRegistered
    (voter_at (run started_election
                 [({| sender := 7; timestamp := 110 |}, Vote 0);
                  ({| sender := 1; timestamp := 111 |}, RegisterVoter 7);
                  ({| sender := 1; timestamp := 120 |}, EndElection)]) 7) = true.
Proof. apply registered_forever. vm_compute. reflexivity. Defined.

(** X2. Candidate identifiers are the positions in the candidate array: in
    every state reached from deployment, [getCandidate(i)] returns the
    candidate stored at index [i], whose [id] is [i], for every [i] below
    [getCandidateCount()], and reverts with "Invalid candidate ID" for every
    other [i]. *)
Theorem getCandidate_by_index (m0 : Msg) (n0 : string) (txs : list (Msg * Call))
    (i : N) :
  let s := run (constructor m0 n0) txs in
  (i < getCandidateCount s ->
     exists c, candidates s !! N.to_nat i = Some c /\ id c = i /\
       getCandidate i s = Ok (i, name c, party c, proposal c, voteCount c)) /\
  (getCandidateCount s <= i ->
     getCandidate i s = Revert (Error "Invalid candidate ID")).
Proof.
  intros s. pose proof (deployed_well_formed m0 n0 txs) as W. fold s in W.
  unfold getCandidate, getCandidateCount. split; intros H.
  - assert ((i <? candidates_length s) = true) as -> by (apply N.ltb_lt, H).
    cbn. unfold candidates_length in H.
    destruct (candidates s !! N.to_nat i) as [c|] eqn:Hc.
    + exists c. pose proof (ids_dense s W _ _ Hc) as Hid. rewrite N2Nat.id in Hid.
      rewrite Hid. auto.
    + apply lookup_ge_None in Hc. lia.
  - assert ((i <? candidates_length s) = false) as -> by (apply N.ltb_ge, H).
    reflexivity.
Qed.

Lemma getCandidate_by_index_witness :
  (exists c, candidates tied_election !! N.to_nat 2 = Some c /\ id c = 2 /\
     getCandidate 2 tied_election = Ok (2, name c, party c, proposal c, voteCount c)) /\
  getCandidate 3 tied_election = Revert (Error "Invalid candidate ID").
Proof.
  destruct (getCandidate_by_index deployer "Board" tied_txs 2) as (H1 & _).
  destruct (getCandidate_by_index deployer "Board" tied_txs 3) as (_ & H2).
  split; [apply H1; vm_compute; reflexivity | apply H2; vm_compute; discriminate].
Defined.

(** X3. In every state reached from deployment, the vote count of the
    candidate at index [i] is the number of voter records that have voted
    with [votedCandidateId = i], and the [votedCandidateId] of every record
    that has voted is the index of a candidate. *)
Theorem votes_counted_per_candidate (m0 : Msg) (n0 : string)
    (txs : list (Msg * Call)) :
  let s := run (constructor m0 n0) txs in
  (forall i c, candidates s !! i = Some c ->
     voteCount c = votes_for s (N.of_nat i)) /\
  (forall a, hasVoted (voter_at s a) = true ->
     votedCandidateId (voter_at s a) < getCandidateCount s).
Proof.
  intros s. pose proof (deployed_well_formed m0 n0 txs) as W. fold s in W.
  split; [apply (votes_per_candidate s W) | apply (voted_for_valid s W)].
Qed.

Lemma votes_counted_per_candidate_witness :
  votes_for tied_election 1 = 2 /\
  votedCandidateId (voter_at tied_election 9) < getCandidateCount tied_election.
Proof.
  destruct (votes_counted_per_candidate deployer "Board" tied_txs) as (H1 & H2).
  split.
  - symmetry.
    apply (H1 1%nat {| id := 1; name := "B"; party := "P"; proposal := "Q";
                       voteCount := 2 |}).
    vm_compute. reflexivity.
  - apply H2. vm_compute. reflexivity.
Defined.

Lemma step_candidates s tx i c :
  candidates s !! i = Some c ->
  exists c', candidates (step s tx) !! i = Some c' /\
    describe c' = describe c /\ voteCount c <= voteCount c'.
Proof.
  intros Hc. destruct tx as [m call]. unfold step; cbn.
  destruct (exec m call s) as [s'|w] eqn:E; [|exists c; split; [exact Hc | split; [reflexivity | lia]]].
  destruct call; cbn in E.
  - apply addCandidate_Ok in E as (_ & _ & ->). exists c. cbn.
    rewrite lookup_app_l by (eapply lookup_lt_Some, Hc). split; [exact Hc | split; [reflexivity | lia]].
  - apply registerVoter_Ok in E as (_ & _ & ->). exists c. cbn.
    split; [exact Hc | split; [reflexivity | lia]].
  - apply startElection_Ok in E as (_ & _ & _ & _ & ->). exists c. cbn.
    split; [exact Hc | split; [reflexivity | lia]].
  - apply vote_Ok in E as (d & _ & _ & _ & Hd & _ & ->). cbn.
    destruct (decide (N.to_nat _candidateId = i)) as [<-|Hne].
    + rewrite list_lookup_insert_eq by (eapply lookup_lt_Some, Hd).
      rewrite Hd in Hc. injection Hc as <-.
      eexists. split; [reflexivity|]. cbn. split; [reflexivity | lia].
    + rewrite list_lookup_insert_ne by exact Hne. exists c.
      split; [exact Hc | split; [reflexivity | lia]].
  - apply endElection_Ok in E as (_ & _ & ->). exists c. cbn.
    split; [exact Hc | split; [reflexivity | lia]].
Qed.

Lemma step_candidates_length s tx :
  electionStarted s = true ->
  electionStarted (step s tx) = true /\
  length (candidates (step s tx)) = length (candidates s).
Proof.
  intros Hs. destruct tx as [m call]. unfold step; cbn.
  destruct (exec m call s) as [s'|w] eqn:E; [|auto].
  destruct call; cbn in E.
  - apply addCandidate_Ok in E as (_ & Hn & _). congruence.
  - apply registerVoter_Ok in E as (_ & _ & ->). auto.
  - apply startElection_Ok in E as (_ & Hn & _). congruence.
  - apply vote_Ok in E as (d & _ & _ & _ & _ & _ & ->). cbn.
    rewrite length_insert. auto.
  - apply endElection_Ok in E as (_ & _ & ->). auto.
Qed.

(** X4. Candidates are never removed or edited: whatever transactions
    follow, the candidate at an index keeps its id, name, party and proposal
    and its vote count does not decrease; once the election has started the
    number of candidates does not change either. *)
Theorem candidates_only_gain_votes (s : Voting) (more : list (Msg * Call)) :
  (forall i c, candidates s !! i = Some c ->
     exists c', candidates (run s more) !! i = Some c' /\
       describe c' = describe c /\ voteCount c <= voteCount c') /\
  (electionStarted s = true ->
     length (candidates (run s more)) = length (candidates s)).
Proof.
  revert s. induction more as [|tx more IH]; intros s.
  - split; [|reflexivity]. intros i c Hc. exists c.
    split; [exact Hc | split; [reflexivity | lia]].
  - destruct (IH (step s tx)) as (IH1 & IH2). split.
    + intros i c Hc. destruct (step_candidates s tx i c Hc) as (c1 & H1 & D1 & V1).
      destruct (IH1 i c1 H1) as (c2 & H2 & D2 & V2).
      exists c2. split; [exact H2|]. split; [congruence | lia].
    + intros Hs. destruct (step_candidates_length s tx Hs) as (Hs' & Hl).
      cbn [run fold_left]. fold (run (step s tx) more). rewrite IH2 by exact Hs'.
      exact Hl.
Qed.

Lemma candidates_only_gain_votes_witness :
  (exists c', candidates ended_election !! 0%nat = Some c' /\
     describe c' = (0, "A", "P", "Q") /\ 0 <= voteCount c') /\
  length (candidates ended_election) = 1%nat.
Proof.
  destruct (candidates_only_gain_votes started_election
    [({| sender := 7; timestamp := 110 |}, Vote 0);
     ({| sender := 1; timestamp := 120 |}, EndElection)]) as (H1 & H2).
  split.
  - apply (H1 0%nat {| id := 0; name := "A"; party := "P"; proposal := "Q";
                       voteCount := 0 |}).
    vm_compute. reflexivity.
  - apply H2. vm_compute. reflexivity.
Defined.

Lemma step_after_end s tx :
  consistent s -> electionEnded s = true ->
  electionEnded (step s tx) = true /\
  candidates (step s tx) = candidates s /\
  totalVotes (step s tx) = totalVotes s.
Proof.
  intros I He. pose proof (ended_is_started s I He) as Hs.
  destruct tx as [m call]. unfold step; cbn.
  destruct (exec m call s) as [s'|w] eqn:E; [|auto].
  destruct call; cbn in E.
  - apply addCandidate_Ok in E as (_ & Hn & _). congruence.
  - apply registerVoter_Ok in E as (_ & _ & ->). auto.
  - apply startElection_Ok in E as (_ & Hn & _). congruence.
  - apply vote_Ok in E as (d & (_ & Hn & _) & _). congruence.
  - apply endElection_Ok in E as (_ & (_ & Hn & _) & _). congruence.
Qed.

Lemma run_after_end s more :
  consistent s -> electionEnded s = true ->
  electionEnded (run s more) = true /\
  candidates (run s more) = candidates s /\
  totalVotes (run s more) = totalVotes s.
Proof.
  revert s. induction more as [|tx more IH]; intros s I He; [auto|].
  destruct (step_after_end s tx I He) as (He' & Hc & Ht).
  destruct (IH (step s tx) (consistent_step s tx I) He') as (J1 & J2 & J3).
  cbn [run fold_left]. fold (run (step s tx) more).
  split; [exact J1|]. split; congruence.
Qed.

(** X5. Results are final: in a state reached from deployment whose
    election has ended, no further transactions change the candidate array,
    the vote counts or [totalVotes], so [getResults] and the results endpoint
    keep returning the same table. *)
Theorem results_are_final (m0 : Msg) (n0 : string) (txs more : list (Msg * Call))
    (now now' : N) :
  let s := run (constructor m0 n0) txs in
  electionEnded s = true ->
  candidates (run s more) = candidates s /\
  totalVotes (run s more) = totalVotes s /\
  getResults (run s more) = getResults s /\
  get_results now' (run s more) = get_results now s.
Proof.
  intros s He. pose proof (deployed_consistent m0 n0 txs) as I. fold s in I.
  destruct (run_after_end s more I He) as (He' & Hc & Ht).
  split; [exact Hc|]. split; [exact Ht|].
  unfold get_results, getElectionStatus, getResults. cbn.
  rewrite He', He, Hc, Ht. split; reflexivity.
Qed.

Lemma results_are_final_witness :
  let late := [({| sender := 1; timestamp := 300 |}, AddCandidate "D" "P" "Q");
               ({| sender := 1; timestamp := 301 |}, RegisterVoter 11);
               ({| sender := 11; timestamp := 302 |}, Vote 0);
               ({| sender := 1; timestamp := 303 |}, StartElection 5)] in
  candidates (run tied_election late) = candidates tied_election /\
  totalVotes (run tied_election late) = totalVotes tied_election /\
  getResults (run tied_election late) = getResults tied_election /\
  get_results 400 (run tied_election late) = get_results 300 tied_election.
Proof.
  apply (results_are_final deployer "Board" tied_txs). vm_compute. reflexivity.
Defined.



(** X7. No votes outside the window: if a transaction changes [totalVotes],
    it is a [vote] sent by a registered voter who had not voted, while the
    election was started and not ended, at a block time in
    [[startTime, endTime]], and it adds exactly one. *)
Theorem tally_moves_only_in_window (s : Voting) (m : Msg) (c : Call) :
  totalVotes (step s (m, c)) <> totalVotes s ->
  exists i, c = Vote i /\
    electionStarted s = true /\ electionEnded s = false /\
    startTime s <= timestamp m <= endTime s /\
    isRegistered (voter_at s (sender m)) = true /\
    hasVoted (voter_at s (sender m)) = false /\
    totalVotes (step s (m, c)) = totalVotes s + 1.
Proof.
  unfold step; cbn. destruct (exec m c s) as [s'|w] eqn:E; [|congruence].
  destruct c; cbn in E.
  - apply addCandidate_Ok in E as (_ & _ & ->). cbn. congruence.
  - apply registerVoter_Ok in E as (_ & _ & ->). cbn. congruence.
  - apply startElection_Ok in E as (_ & _ & _ & _ & ->). cbn. congruence.
  - apply vote_Ok in E as (d & (H1 & H2 & H3) & Hr & Hn & _ & _ & ->). cbn.
    intros _. exists _candidateId. auto 10.
  - apply endElection_Ok in E as (_ & _ & ->). cbn. congruence.
Qed.

Lemma tally_moves_only_in_window_witness :
  exists i, Vote 0 = Vote i /\
    electionStarted started_election = true /\
    electionEnded started_election = false /\
    startTime started_election <= 110 <= endTime started_election /\
    isRegistered (voter_at started_election 7) = true /\
    hasVoted (voter_at started_election 7) = false /\
    totalVotes (step started_election ({| sender := 7; timestamp := 110 |}, Vote 0))
      = totalVotes started_election + 1.
Proof.
  apply (tally_moves_only_in_window started_election
           {| sender := 7; timestamp := 110 |} (Vote 0)).
  vm_compute. discriminate.
Defined.

Lemma step_admin s tx :
  admin (step s tx) = admin s /\ electionName (step s tx) = electionName s.
Proof.
  destruct tx as [m c]. unfold step; cbn.
  destruct (exec m c s) as [s'|w] eqn:E; [|auto].
  destruct c; cbn in E.
  - apply addCandidate_Ok in E as (_ & _ & ->). auto.
  - apply registerVoter_Ok in E as (_ & _ & ->). auto.
  - apply startElection_Ok in E as (_ & _ & _ & _ & ->). auto.
  - apply vote_Ok in E as (d & _ & _ & _ & _ & _ & ->). auto.
  - apply endElection_Ok in E as (_ & _ & ->). auto.
Qed.

(** X8. The administrator is the deployer for good, and only the
    administrator manages the election: no sequence of transactions changes
    [admin] or [electionName], and a transaction other than [vote] sent by
    anyone else reverts with "Only admin can perform this action" and
    leaves the storage as it was. *)
Theorem only_admin_manages (s : Voting) (more : list (Msg * Call))
    (m : Msg) (c : Call) :
  (admin (run s more) = admin s /\ electionName (run s more) = electionName s) /\
  (sender m <> admin s -> (forall i, c <> Vote i) ->
     exec m c s = Revert (Error "Only admin can perform this action") /\
     step s (m, c) = s).
Proof.
  split.
  - revert s. induction more as [|tx more IH]; intros s; [auto|].
    destruct (step_admin s tx) as (H1 & H2). destruct (IH (step s tx)) as (J1 & J2).
    cbn [run fold_left]. fold (run (step s tx) more). split; congruence.
  - intros Hne Hc.
    assert (E : exec m c s = Revert (Error "Only admin can perform this action")).
    { assert (Ha : onlyAdmin m s = Revert (Error "Only admin can perform this action")).
      { unfold onlyAdmin. apply N.eqb_neq in Hne. rewrite Hne. reflexivity. }
      destruct c; cbn;
        [unfold addCandidate | unfold registerVoter | unfold startElection
        | exfalso; eapply Hc; reflexivity | unfold endElection];
        rewrite Ha; reflexivity. }
    split; [exact E|]. unfold step; cbn. rewrite E. reflexivity.
Qed.

Lemma only_admin_manages_witness :
  exec {| sender := 7; timestamp := 120 |} EndElection started_election
    = Revert (Error "Only admin can perform this action") /\
  step started_election ({| sender := 7; timestamp := 120 |}, EndElection)
    = started_election.
Proof.
  apply (proj2 (only_admin_manages started_election []
                  {| sender := 7; timestamp := 120 |} EndElection));
    [vm_compute | intros i]; discriminate.
Defined.

(** X9. [startElection] succeeds exactly when the administrator calls it
    before the start with at least one candidate and [block.timestamp +
    60 * duration] within the [uint] range; the window then is
    [[block.timestamp, block.timestamp + 60 * duration]]. When only the
    range condition fails, the call stops with the arithmetic panic [0x11]
    and the election is not started. *)
Theorem startElection_window (m : Msg) (d : N) (s : Voting) :
  (forall s', startElection m d s = Ok s' <->
     sender m = admin s /\ electionStarted s = false /\ candidates s <> [] /\
     timestamp m + d * 60 <= UINT_MAX /\
     s' = {| admin := admin s; electionName := electionName s;
             startTime := timestamp m; endTime := timestamp m + d * 60;
             electionStarted := true; electionEnded := electionEnded s;
             candidates := candidates s; voters := voters s;
             totalVotes := totalVotes s |}) /\
  (sender m = admin s -> electionStarted s = false -> candidates s <> [] ->
   UINT_MAX < timestamp m + d * 60 ->
     startElection m d s = Revert (Panic 17) /\
     electionStarted (step s (m, StartElection d)) = false).
Proof.
  split; [intros s'; apply startElection_Ok|].
  intros Ha Hs Hc Hover.
  assert (E : startElection m d s = Revert (Panic 17)).
  { unfold startElection, minutes.
    assert (onlyAdmin m s = Ok tt) as -> by (apply onlyAdmin_Ok, Ha).
    rewrite Hs.
    assert ((0 <? candidates_length s) = true) as ->.
    { apply N.ltb_lt. unfold candidates_length.
      destruct (candidates s); [congruence | cbn; lia]. }
    cbn. unfold checked_mul.
    destruct (N.leb_spec (d * 60) UINT_MAX) as [_|_]; [|reflexivity].
    cbn. unfold checked_add.
    destruct (N.leb_spec (timestamp m + d * 60) UINT_MAX) as [Hbad|_]; [lia|].
    reflexivity. }
  split; [exact E|]. unfold step; cbn. rewrite E. exact Hs.
Qed.

Lemma startElection_window_witness :
  startElection {| sender := 1; timestamp := 100 |} UINT_MAX created_election
    = Revert (Panic 17) /\
  electionStarted (step created_election
                     ({| sender := 1; timestamp := 100 |}, StartElection UINT_MAX))
    = false.
Proof.
  apply (proj2 (startElection_window {| sender := 1; timestamp := 100 |} UINT_MAX
                  created_election));
    [reflexivity | reflexivity | discriminate | vm_compute; reflexivity].
Defined.

Lemma step_window s tx :
  electionStarted s = true ->
  electionStarted (step s tx) = true /\
  startTime (step s tx) = startTime s /\ endTime (step s tx) = endTime s.
Proof.
  intros Hs. destruct tx as [m c]. unfold step; cbn.
  destruct (exec m c s) as [s'|w] eqn:E; [|auto].
  destruct c; cbn in E.
  - apply addCandidate_Ok in E as (_ & Hn & _). congruence.
  - apply registerVoter_Ok in E as (_ & _ & ->). auto.
  - apply startElection_Ok in E as (_ & Hn & _). congruence.
  - apply vote_Ok in E as (d & _ & _ & _ & _ & _ & ->). auto.
  - apply endElection_Ok in E as (_ & _ & ->). auto.
Qed.

(** X10. The voting window is set once: in every state reached from
    deployment [startTime <= endTime], both are 0 before the start, and once
    the election has started no sequence of transactions changes either. *)
Theorem window_is_fixed (m0 : Msg) (n0 : string) (txs more : list (Msg * Call)) :
  let s := run (constructor m0 n0) txs in
  startTime s <= endTime s /\
  (electionStarted s = false -> startTime s = 0 /\ endTime s = 0) /\
  (electionStarted s = true ->
     startTime (run s more) = startTime s /\ endTime (run s more) = endTime s).
Proof.
  intros s. pose proof (deployed_well_formed m0 n0 txs) as W. fold s in W.
  split; [apply (window_ordered s W)|]. split; [apply (unstarted_window s W)|].
  clearbody s. clear W. revert s.
  induction more as [|tx more IH]; intros s Hs; [auto|].
  destruct (step_window s tx Hs) as (Hs' & H1 & H2).
  destruct (IH (step s tx) Hs') as (J1 & J2).
  cbn [run fold_left]. fold (run (step s tx) more). split; congruence.
Qed.

Lemma window_is_fixed_witness :
  (startTime created_election = 0 /\ endTime created_election = 0) /\
  (startTime ended_election = 100 /\ endTime ended_election = 160).
Proof.
  split.
  - destruct (window_is_fixed deployer "Board"
      [({| sender := 1; timestamp := 11 |}, AddCandidate "A" "P" "Q")] [])
      as (_ & H & _).
    apply H. vm_compute. reflexivity.
  - destruct (window_is_fixed deployer "Board"
      [({| sender := 1; timestamp := 11 |}, AddCandidate "A" "P" "Q");
       ({| sender := 1; timestamp := 12 |}, RegisterVoter 7);
       ({| sender := 1; timestamp := 100 |}, StartElection 1)]
      [({| sender := 7; timestamp := 110 |}, Vote 0);
       ({| sender := 1; timestamp := 120 |}, EndElection)]) as (_ & _ & H).
    apply H. vm_compute. reflexivity.
Defined.

(** X20. Adding and then reading: a successful [addCandidate] raises
    [getCandidateCount()] by one, [getCandidate] at the old count returns the
    new candidate with that id, the fields given and no votes, and
    [getCandidate] at every lower index returns what it returned before. *)
Theorem addCandidate_then_getCandidate (m : Msg) (n p q : string)
    (s s' : Voting) (i : N) :
  addCandidate m n p q s = Ok s' ->
  getCandidateCount s' = getCandidateCount s + 1 /\
  getCandidate (getCandidateCount s) s' = Ok (getCandidateCount s, n, p, q, 0) /\
  (i < getCandidateCount s -> getCandidate i s' = getCandidate i s).
Proof.
  intros H. apply addCandidate_Ok in H as (_ & _ & ->).
  unfold getCandidateCount, getCandidate, candidates_length. cbn.
  rewrite length_app. cbn. split; [lia|]. split.
  - assert ((N.of_nat (length (candidates s)) <?
             N.of_nat (length (candidates s) + 1)) = true) as ->
      by (apply N.ltb_lt; lia).
    cbn. rewrite Nat2N.id, lookup_app_r by lia.
    rewrite Nat.sub_diag. reflexivity.
  - intros Hi.
    assert ((i <? N.of_nat (length (candidates s) + 1)) = true) as ->
      by (apply N.ltb_lt; lia).
    assert ((i <? N.of_nat (length (candidates s))) = true) as ->
      by (apply N.ltb_lt; lia).
    cbn. rewrite lookup_app_l by lia. reflexivity.
Qed.

Lemma addCandidate_then_getCandidate_witness :
  exists s',
    addCandidate {| sender := 1; timestamp := 20 |} "B" "P2" "Q2" created_election
      = Ok s' /\
    getCandidateCount s' = 2 /\
    getCandidate 1 s' = Ok (1, "B", "P2", "Q2", 0) /\
    getCandidate 0 s' = getCandidate 0 created_election.
Proof.
  eexists. split; [reflexivity|].
  destruct (addCandidate_then_getCandidate {| sender := 1; timestamp := 20 |}
              "B" "P2" "Q2" created_election _ 0 eq_refl) as (H1 & H2 & H3).
  split; [exact H1|]. split; [exact H2|]. apply H3. vm_compute. reflexivity.
Defined.

(** ** The facade's gates *)

(** X11. [adminAuth] lets a request through exactly when its [x-api-key]
    header is present, not empty and equal to the configured
    [ADMIN_API_KEY]; with no key configured, or an empty one, every request
    is refused. *)
Theorem admin_key_required (env : Env) (apiKey : option string) :
  (adminAuth env apiKey = true <->
     exists k, k <> "" /\ apiKey = Some k /\ ADMIN_API_KEY env = Some k) /\
  (ADMIN_API_KEY env = None \/ ADMIN_API_KEY env = Some "" ->
     adminAuth env apiKey = false).
Proof.
  assert (H : adminAuth env apiKey = true <->
     exists k, k <> "" /\ apiKey = Some k /\ ADMIN_API_KEY env = Some k).
  { unfold adminAuth. destruct apiKey as [k|]; [|split; [discriminate | intros (k & _ & [=] & _)]].
    rewrite andb_true_iff, negb_true_iff. split.
    - intros (Hne & Hk). destruct (ADMIN_API_KEY env) as [k'|]; [|discriminate].
      apply String.eqb_eq in Hk as <-. exists k. split; [|auto].
      intros ->. discriminate.
    - intros (k0 & Hne & [= <-] & ->). split; [|apply String.eqb_refl].
      apply String.eqb_neq, Hne. }
  split; [exact H|].
  intros Hcfg. apply not_true_is_false. intros E.
  apply H in E as (k & Hne & _ & Hk). destruct Hcfg as [Hc|Hc]; congruence.
Qed.

Lemma admin_key_required_witness :
  adminAuth {| ADMIN_API_KEY := None; ADMIN_ADDRESS := 1 |} (Some "k") = false.
Proof.
  apply (proj2 (admin_key_required {| ADMIN_API_KEY := None; ADMIN_ADDRESS := 1 |}
                  (Some "k"))).
  left. reflexivity.
Defined.

(** X12. The administrator's endpoints (add candidate, register voter,
    start, end) answer 401 "Unauthorized: Admin access required" and send
    nothing to the ledger when the request does not pass [adminAuth],
    whatever its body; and they answer with a 2xx status only when the request
    passes [adminAuth] and the configured [ADMIN_ADDRESS] is the contract's
    administrator. *)
Theorem admin_endpoints_need_key_and_admin (isAddress : string -> bool)
    (toAddress : string -> N) (env : Env) (apiKey : option string)
    (name_ party_ proposal_ voterAddress : string) (durationInMinutes : Z)
    (now : N) (s : Voting) :
  let outs :=
    [post_candidates env apiKey name_ party_ proposal_ now s;
     post_voters_register isAddress toAddress env apiKey voterAddress now s;
     post_election_start env apiKey durationInMinutes now s;
     post_election_end env apiKey now s] in
  (adminAuth env apiKey = false ->
     Forall (fun out => out = (unauthorized, s)) outs) /\
  Forall (fun out : Response * Voting =>
            succeeded out.1 = true ->
            adminAuth env apiKey = true /\ ADMIN_ADDRESS env = admin s) outs.
Proof.
  intros outs. split.
  - intros H. unfold outs, post_candidates, post_voters_register,
      post_election_start, post_election_end. rewrite H.
    repeat constructor.
  - assert (Hadm : forall c s', (forall i, c <> Vote i) ->
              exec {| sender := ADMIN_ADDRESS env; timestamp := now |} c s = Ok s' ->
              ADMIN_ADDRESS env = admin s).
    { intros c s' Hc E. destruct c; cbn in E.
      - unfold addCandidate in E. ok_inv E. apply onlyAdmin_Ok in Hreq. exact Hreq.
      - unfold registerVoter in E. ok_inv E. apply onlyAdmin_Ok in Hreq. exact Hreq.
      - unfold startElection in E. ok_inv E. apply onlyAdmin_Ok in Hreq. exact Hreq.
      - exfalso. eapply Hc. reflexivity.
      - unfold endElection in E. ok_inv E. apply onlyAdmin_Ok in Hreq. exact Hreq. }
    unfold outs, post_candidates, post_voters_register, post_election_start,
      post_election_end, sendTransaction.
    apply Forall_cons_2; [|apply Forall_cons_2; [|apply Forall_cons_2;
      [|apply Forall_cons_2; [|apply Forall_nil_2]]]].
    + destruct (adminAuth env apiKey); [|discriminate].
      destruct (validation _); [|discriminate].
      destruct (exec _ _ s) eqn:E; [|discriminate].
      intros _. split; [reflexivity|]. eapply Hadm; [|exact E]. discriminate.
    + destruct (adminAuth env apiKey); [|discriminate].
      destruct (validation _); [|discriminate].
      destruct (isAddress voterAddress); [|discriminate].
      destruct (exec _ _ s) eqn:E; [|discriminate].
      intros _. split; [reflexivity|]. eapply Hadm; [|exact E]. discriminate.
    + destruct (adminAuth env apiKey); [|discriminate].
      destruct (validation _); [|discriminate].
      destruct (_ <? _)%Z; [discriminate|].
      destruct (exec _ _ s) eqn:E; [|discriminate].
      intros _. split; [reflexivity|]. eapply Hadm; [|exact E]. discriminate.
    + destruct (adminAuth env apiKey); [|discriminate].
      destruct (exec _ _ s) eqn:E; [|discriminate].
      intros _. split; [reflexivity|]. eapply Hadm; [|exact E]. discriminate.
Qed.

Lemma admin_endpoints_need_key_and_admin_witness :
  let env := {| ADMIN_API_KEY := Some "k"; ADMIN_ADDRESS := 1 |} in
  Forall (fun out => out = (unauthorized, created_election))
    [post_candidates env (Some "guess") "D" "P" "Q" 20 created_election;
     post_voters_register (fun _ => true) (fun _ => 9) env (Some "guess") "0x09" 20
       created_election;
     post_election_start env (Some "guess") 5 20 created_election;
     post_election_end env (Some "guess") 20 created_election] /\
  (adminAuth env (Some "k") = true /\ ADMIN_ADDRESS env = admin created_election).
Proof.
  split.
  - apply (proj1 (admin_endpoints_need_key_and_admin (fun _ => true) (fun _ => 9)
             {| ADMIN_API_KEY := Some "k"; ADMIN_ADDRESS := 1 |} (Some "guess")
             "D" "P" "Q" "0x09" 5 20 created_election)).
    reflexivity.
  - apply (Forall_inv (proj2 (admin_endpoints_need_key_and_admin (fun _ => true)
             (fun _ => 9) {| ADMIN_API_KEY := Some "k"; ADMIN_ADDRESS := 1 |}
             (Some "k") "D" "P" "Q" "0x09" 5 20 created_election))).
    vm_compute. reflexivity.
Defined.


(** X14. The vote endpoint looks at the voter record before it sends
    anything: for a well-formed request, an address that is not registered is
    answered with 403 "Voter is not registered", and an address that has
    voted with 403 "Voter has already cast a vote", in every phase of the
    election and without touching the ledger. *)
Theorem vote_request_prechecks (isAddress : string -> bool)
    (toAddress : string -> N) (candidateId : Z) (voterAddress privateKey : string)
    (now : N) (s : Voting) :
  (0 <= candidateId)%Z -> voterAddress <> "" -> privateKey <> "" ->
  isAddress voterAddress = true ->
  (isRegistered (voter_at s (toAddress voterAddress)) = false ->
     post_vote isAddress toAddress candidateId voterAddress privateKey now s =
       ({| status := 403; body := ErrorBody "Voter is not registered" |}, s)) /\
  (isRegistered (voter_at s (toAddress voterAddress)) = true ->
   hasVoted (voter_at s (toAddress voterAddress)) = true ->
     post_vote isAddress toAddress candidateId voterAddress privateKey now s =
       ({| status := 403; body := ErrorBody "Voter has already cast a vote" |}, s)).
Proof.
  intros Hc Ha Hk Hv. unfold post_vote, validation, isInt_min, notEmpty, voters_.
  assert ((0 <=? candidateId)%Z = true) as -> by lia.
  apply String.eqb_neq in Ha, Hk. rewrite Ha, Hk, Hv. cbn.
  split; [intros -> | intros -> ->]; reflexivity.
Qed.

Lemma vote_request_prechecks_witness :
  post_vote (fun _ => true) (fun _ => 9) 0 "0x09" "key" 110 started_election =
    ({| status := 403; body := ErrorBody "Voter is not registered" |},
     started_election) /\
  post_vote (fun _ => true) (fun _ => 7) 0 "0x07" "key" 300 ended_election =
    ({| status := 403; body := ErrorBody "Voter has already cast a vote" |},
     ended_election).
Proof.
  split.
  - apply (proj1 (vote_request_prechecks (fun _ => true) (fun _ => 9) 0 "0x09" "key"
                    110 started_election ltac:(lia) ltac:(discriminate)
                    ltac:(discriminate) eq_refl)).
    vm_compute. reflexivity.
  - apply (proj2 (vote_request_prechecks (fun _ => true) (fun _ => 7) 0 "0x07" "key"
                    300 ended_election ltac:(lia) ltac:(discriminate)
                    ltac:(discriminate) eq_refl));
      vm_compute; reflexivity.
Defined.

(** X15. Registering and then asking: when the register endpoint answers
    201, the status endpoint for the same address string answers 200 with
    [isRegistered = true], [hasVoted = false] and [votedFor = null]. *)
Theorem register_then_status (isAddress : string -> bool)
    (toAddress : string -> N) (env : Env) (apiKey : option string)
    (voterAddress : string) (now : N) (s : Voting) :
  let out := post_voters_register isAddress toAddress env apiKey voterAddress now s in
  status out.1 = 201%nat ->
  get_voter_status isAddress toAddress voterAddress out.2 =
    {| status := 200; body := VoterStatusBody voterAddress true false None |}.
Proof.
  unfold post_voters_register, sendTransaction.
  destruct (adminAuth env apiKey); [|discriminate].
  destruct (validation _); [|discriminate].
  destruct (isAddress voterAddress) eqn:Ha; [|discriminate].
  destruct (exec _ _ s) as [s'|w] eqn:E; [|discriminate].
  intros _. cbn in E. unfold registerVoter in E. ok_inv E. injection E as <-.
  cbn [negb fst snd]. unfold get_voter_status, voters_, hasVoted_. rewrite Ha.
  cbn [negb]. rewrite voter_at_set_voter.
  destruct (decide (toAddress voterAddress = toAddress voterAddress)); [|congruence].
  reflexivity.
Qed.

Lemma register_then_status_witness :
  let env := {| ADMIN_API_KEY := Some "k"; ADMIN_ADDRESS := 1 |} in
  get_voter_status (fun _ => true) (fun _ => 9) "0x09"
    (post_voters_register (fun _ => true) (fun _ => 9) env (Some "k") "0x09" 130
       started_election).2 =
    {| status := 200; body := VoterStatusBody "0x09" true false None |}.
Proof.
  apply (register_then_status (fun _ => true) (fun _ => 9)
           {| ADMIN_API_KEY := Some "k"; ADMIN_ADDRESS := 1 |} (Some "k") "0x09" 130
           started_election).
  vm_compute. reflexivity.
Defined.



(** X17. Ending opens the results and closes the vote: in the state left
    by an end request answered with 200, the results endpoint answers 200 and
    the vote endpoint does not answer 200, whatever the request and the
    block time. *)
Theorem end_opens_results (isAddress : string -> bool) (toAddress : string -> N)
    (env : Env) (apiKey : option string) (now now' : N) (s : Voting)
    (candidateId : Z) (voterAddress privateKey : string) :
  let out := post_election_end env apiKey now s in
  status out.1 = 200%nat ->
  status (get_results now' out.2) = 200%nat /\
  status (post_vote isAddress toAddress candidateId voterAddress privateKey
            now' out.2).1 <> 200%nat.
Proof.
  unfold post_election_end, sendTransaction.
  destruct (adminAuth env apiKey); [|discriminate].
  destruct (exec _ _ s) as [s'|w] eqn:E; [|discriminate].
  intros _. cbn in E. unfold endElection in E. ok_inv E. injection E as <-.
  cbn [negb fst snd]. split; [reflexivity|].
  unfold post_vote, sendTransaction, voters_.
  destruct (validation _); [|discriminate].
  destruct (isAddress voterAddress); [|discriminate].
  destruct (isRegistered _); [|discriminate].
  destruct (hasVoted _); [discriminate|].
  destruct (_ <? _)%Z; [discriminate|].
  cbn [exec]. unfold vote, electionActive. cbn [electionEnded].
  destruct (electionStarted s); discriminate.
Qed.

Lemma end_opens_results_witness :
  let env := {| ADMIN_API_KEY := Some "k"; ADMIN_ADDRESS := 1 |} in
  let s' := (post_election_end env (Some "k") 120 started_election).2 in
  status (get_results 200 s') = 200%nat /\
  status (post_vote (fun _ => true) (fun _ => 7) 0 "0x07" "key" 200 s').1 <> 200%nat.
Proof.
  apply (end_opens_results (fun _ => true) (fun _ => 7)
           {| ADMIN_API_KEY := Some "k"; ADMIN_ADDRESS := 1 |} (Some "k") 120 200
           started_election).
  vm_compute. reflexivity.
Defined.

(** ** [sanitizeBigInt] and the gas buffer *)




(** X19. The deployment's gas limit is the estimate plus a fifth of it,
    rounded down: for a non-negative estimate it is never below the estimate,
    never above six fifths of it, and less than one unit short of six
    fifths. *)
Theorem gasWithBuffer_bounds (gasEstimate : Z) :
  (0 <= gasEstimate)%Z ->
  (gasEstimate <= gasWithBuffer gasEstimate)%Z /\
  (5 * gasWithBuffer gasEstimate <= 6 * gasEstimate)%Z /\
  (6 * gasEstimate < 5 * gasWithBuffer gasEstimate + 5)%Z.
Proof.
  intros H. unfold gasWithBuffer. rewrite Z.quot_div_nonneg by lia.
  pose proof (Z.div_mod gasEstimate 5 ltac:(lia)).
  pose proof (Z.mod_pos_bound gasEstimate 5 ltac:(lia)). lia.
Qed.

Lemma gasWithBuffer_bounds_witness :
  (21004 <= gasWithBuffer 21004)%Z /\
  (5 * gasWithBuffer 21004 <= 6 * 21004)%Z /\
  (6 * 21004 < 5 * gasWithBuffer 21004 + 5)%Z.
Proof. apply gasWithBuffer_bounds. lia. Defined.

(** ** The status endpoint in reachable states *)

Lemma votes_for_voted s a :
  hasVoted (voter_at s a) = true ->
  1 <= votes_for s (votedCandidateId (voter_at s a)).
Proof.
  intros Hv. unfold votes_for.
  destruct (voters s !! a) as [v|] eqn:Ha;
    [|unfold voter_at in Hv; rewrite Ha in Hv; discriminate].
  assert (Hin : filter (fun kv : N * Voter =>
                   hasVoted kv.2 = true /\
                   votedCandidateId kv.2 = votedCandidateId (voter_at s a))
                  (voters s) !! a = Some v).
  { apply map_lookup_filter_Some. split; [exact Ha|].
    unfold voter_at in *. rewrite Ha in *. cbn in *. auto. }
  destruct (size _) eqn:Hsz; [|lia].
  apply map_size_empty_iff in Hsz. rewrite Hsz in Hin. rewrite lookup_empty in Hin.
  discriminate.
Qed.

(** X21. What the status endpoint shows as [votedFor] is a candidate that
    holds the vote: in every state reached from deployment with at most
    [2^53] candidates, for an address that has voted the endpoint answers
    200 with [isRegistered] and [hasVoted] true and [votedFor] the exact
    number of an index [i] at which a candidate with [id = i] and at least one
    vote is stored. *)
Theorem status_votedFor_is_a_candidate (isAddress : string -> bool)
    (toAddress : string -> N) (m0 : Msg) (n0 : string) (txs : list (Msg * Call))
    (address_ : string) :
  let s := run (constructor m0 n0) txs in
  isAddress address_ = true ->
  hasVoted (voter_at s (toAddress address_)) = true ->
  getCandidateCount s <= 2 ^ 53 ->
  exists i c,
    get_voter_status isAddress toAddress address_ s =
      {| status := 200;
         body := VoterStatusBody address_ true true (Some (Js.Number_of_uint i)) |} /\
    Js.ulps (Js.Number_of_uint i) = (Z.of_N i * 2 ^ 1074)%Z /\
    candidates s !! N.to_nat i = Some c /\ id c = i /\ 1 <= voteCount c.
Proof.
  intros s Ha Hv Hcount.
  pose proof (deployed_consistent m0 n0 txs) as I.
  pose proof (deployed_well_formed m0 n0 txs) as W. fold s in I, W.
  pose proof (voted_for_valid s W _ Hv) as Hi.
  pose proof (voted_is_registered s I _ Hv) as Hr.
  set (i := votedCandidateId (voter_at s (toAddress address_))) in *.
  unfold getCandidateCount in Hcount.
  destruct (candidates s !! N.to_nat i) as [c|] eqn:Hc;
    [|apply lookup_ge_None in Hc; unfold candidates_length in Hi; lia].
  exists i, c. split; [|split; [|split; [exact Hc|split]]].
  - unfold get_voter_status, voters_, hasVoted_. rewrite Ha. cbn [negb].
    fold i. rewrite Hv, Hr. reflexivity.
  - apply JsFacts.Number_safe. lia.
  - pose proof (ids_dense s W _ _ Hc) as Hid. rewrite N2Nat.id in Hid. exact Hid.
  - pose proof (votes_per_candidate s W _ _ Hc) as Hvc. rewrite N2Nat.id in Hvc.
    rewrite Hvc. apply votes_for_voted, Hv.
Qed.

Lemma status_votedFor_is_a_candidate_witness :
  exists i c,
    get_voter_status (fun _ => true) (fun _ => 9) "0x09" tied_election =
      {| status := 200;
         body := VoterStatusBody "0x09" true true (Some (Js.Number_of_uint i)) |} /\
    Js.ulps (Js.Number_of_uint i) = (Z.of_N i * 2 ^ 1074)%Z /\
    candidates tied_election !! N.to_nat i = Some c /\ id c = i /\ 1 <= voteCount c.
Proof.
  apply (status_votedFor_is_a_candidate (fun _ => true) (fun _ => 9) deployer "Board"
           tied_txs "0x09");
    [reflexivity | vm_compute; reflexivity | vm_compute; discriminate].
Defined.

(** ** The counter of the candidates loop *)

Module JsCounter.
Import Js JsFacts.
Local Open Scope Z_scope.

Lemma shr_1_even m :
  0 <= m ->
  shr_1 {| shr_m := 2 * m; shr_r := false; shr_s := false |} =
    {| shr_m := m; shr_r := false; shr_s := false |}.
Proof. destruct m as [|p|p]; [reflexivity | reflexivity | lia]. Qed.

(** Shifting out zero bits loses nothing. *)
Lemma iter_shr_even p : forall m, 0 <= m ->
  SpecFloat.iter_pos shr_1 p
    {| shr_m := m * 2 ^ Z.pos p; shr_r := false; shr_s := false |} =
    {| shr_m := m; shr_r := false; shr_s := false |}.
Proof.
  induction p as [p IH|p IH|]; intros m Hm; cbn [SpecFloat.iter_pos].
  - rewrite pow2_xI.
    replace (m * (2 * (2 ^ Z.pos p * 2 ^ Z.pos p)))
      with (2 * (m * 2 ^ Z.pos p * 2 ^ Z.pos p)) by lia.
    assert (0 <= m * 2 ^ Z.pos p) by (apply Z.mul_nonneg_nonneg; lia).
    rewrite shr_1_even by (apply Z.mul_nonneg_nonneg; lia).
    rewrite IH by lia. apply IH, Hm.
  - rewrite pow2_xO, Z.mul_assoc.
    assert (0 <= m * 2 ^ Z.pos p) by (apply Z.mul_nonneg_nonneg; lia).
    rewrite IH by lia. apply IH, Hm.
  - rewrite Z.mul_comm. apply shr_1_even, Hm.
Qed.

(** A mantissa of 53 bits followed by [k] zero bits is rounded to the 53
    bits. *)
Lemma binary_round_even (M q : positive) (k e : Z) :
  Zdigits2 (Z.pos q) = 53 -> 0 <= k -> Z.pos M = Z.pos q * 2 ^ k ->
  emin <= e -> e + k <= emax - prec ->
  binary_round prec emax false M e = S754_finite false q (e + k).
Proof.
  intros Hq Hk HM He Hmax. unfold binary_round.
  change (Z.pos (digits2_pos M)) with (Zdigits2 (Z.pos M)).
  assert (HdM : Zdigits2 (Z.pos M) = 53 + k) by (rewrite HM, Zdigits2_shl; lia).
  rewrite HdM, fexp_eq.
  replace (Z.max (53 + k + e - 53) emin) with (e + k) by lia.
  unfold shl_align. replace (e + k - e) with k by lia.
  assert (Hsh : (let '(mz, ez) := match k with
                    | Z.neg d => (Pos.iter xO M d, e + k)
                    | _ => (M, e)
                    end in binary_round_aux prec emax false (Z.pos mz) ez loc_Exact)
                = binary_round_aux prec emax false (Z.pos M) e loc_Exact).
  { destruct k; [reflexivity | reflexivity | lia]. }
  rewrite Hsh. clear Hsh.
  unfold binary_round_aux, shr_fexp. rewrite HdM, fexp_eq.
  replace (Z.max (53 + k + e - 53) emin - e) with k by lia.
  cbn [shr_record_of_loc].
  assert (Hshr : shr {| shr_m := Z.pos M; shr_r := false; shr_s := false |} e k =
                 ({| shr_m := Z.pos q; shr_r := false; shr_s := false |}, e + k)).
  { destruct k as [|p|p]; [|cbn [shr]|lia].
    - cbn [shr]. rewrite Z.add_0_r. f_equal. f_equal. rewrite HM. lia.
    - rewrite HM, iter_shr_even by lia. reflexivity. }
  rewrite Hshr. cbn [shr_m loc_of_shr_record round_nearest_even].
  rewrite Hq, fexp_eq.
  replace (Z.max (53 + (e + k) - 53) emin - (e + k)) with 0 by lia.
  cbn [shr shr_record_of_loc shr_m].
  destruct (Z.leb_spec (e + k) (emax - prec)); [reflexivity | lia].
Qed.

Lemma safe_digits p : Z.pos p < 2 ^ 53 -> 1 <= Zdigits2 (Z.pos p) <= 53.
Proof.
  intros Hp. rewrite Zdigits2_log2 by lia. pose proof (Z.log2_nonneg (Z.pos p)).
  assert (Z.log2 (Z.pos p) < 53); [|lia]. apply Z.log2_lt_pow2; lia.
Qed.

(** The double of a positive integer below [2^53]: its bits, shifted to the
    top of the mantissa. *)
Lemma Number_closed p :
  Z.pos p < 2 ^ 53 ->
  exists m,
    Number_of_uint (N.pos p) = S754_finite false m (Zdigits2 (Z.pos p) - 53) /\
    Z.pos m = Z.pos p * 2 ^ (53 - Zdigits2 (Z.pos p)).
Proof.
  intros Hp. pose proof (safe_digits p Hp) as Hd.
  unfold Number_of_uint, binary_normalize, binary_round. cbn [Z.of_N].
  change (Z.pos (digits2_pos p)) with (Zdigits2 (Z.pos p)).
  destruct (shl_align_spec p 0 (fexp prec emax (Zdigits2 (Z.pos p) + 0))) as (Hv & Hx).
  destruct (shl_align p 0 (fexp prec emax (Zdigits2 (Z.pos p) + 0))) as [mz ez].
  cbn [fst snd] in *. rewrite fexp_eq in *. unfold emin in *.
  replace (Z.min 0 (Z.max (Zdigits2 (Z.pos p) + 0 - 53) (-1074)))
    with (Zdigits2 (Z.pos p) - 53) in * by lia.
  exists mz. rewrite binary_round_aux_exact.
  - subst ez. split; [reflexivity|]. rewrite Hv. f_equal. f_equal. lia.
  - rewrite Hv, Zdigits2_shl by lia. lia.
  - unfold emin, emax, prec. lia.
Qed.

Lemma one_eq : one = S754_finite false 4503599627370496 (-52).
Proof. reflexivity. Qed.

(** [i++] is exact below [2^53]. *)
Lemma add_one (n : N) :
  (n + 1 < 2 ^ 53)%N -> add (Number_of_uint n) one = Number_of_uint (n + 1).
Proof.
  intros Hn. destruct n as [|p]; [reflexivity|].
  assert (Hp : Z.pos p < 2 ^ 53) by lia.
  assert (Hp1 : Z.pos (p + 1) < 2 ^ 53) by lia.
  destruct (Number_closed p Hp) as (m & -> & Hm).
  replace (N.pos p + 1)%N with (N.pos (p + 1)) by lia.
  destruct (Number_closed (p + 1) Hp1) as (m' & -> & Hm').
  pose proof (safe_digits p Hp) as Hd. pose proof (safe_digits (p + 1) Hp1) as Hd'.
  set (d := Zdigits2 (Z.pos p)) in *. set (d' := Zdigits2 (Z.pos (p + 1))) in *.
  assert (Hd2 : 2 <= d').
  { destruct (Z.eq_dec d' 1) as [E|E]; [|lia].
    pose proof (Zdigits2_bounds (Z.pos (p + 1)) ltac:(lia)) as Hb.
    fold d' in Hb. rewrite E in Hb. cbn in Hb. lia. }
  rewrite one_eq. unfold add. cbn [SFadd cond_Zopp].
  destruct (shl_align_spec m (d - 53) (Z.min (d - 53) (-52))) as (V1 & _).
  destruct (shl_align_spec 4503599627370496 (-52) (Z.min (d - 53) (-52))) as (V2 & _).
  rewrite V1, V2, Hm.
  replace (Z.min (d - 53) (Z.min (d - 53) (-52))) with (-52) by lia.
  replace (Z.min (-52) (Z.min (d - 53) (-52))) with (-52) by lia.
  replace (Z.min (d - 53) (-52)) with (-52) by lia.
  replace (Z.pos p * 2 ^ (53 - d) * 2 ^ (d - 53 - -52) + 4503599627370496 * 2 ^ (-52 - -52))
    with (Z.pos (p + 1) * 2 ^ 52).
  2:{ rewrite <- Z.mul_assoc, <- Z.pow_add_r by lia.
      replace (53 - d + (d - 53 - -52)) with 52 by lia.
      replace (-52 - -52) with 0 by lia. lia. }
  assert (HM : exists M, Z.pos M = Z.pos (p + 1) * 2 ^ 52).
  { exists ((p + 1) * 2 ^ 52)%positive. lia. }
  destruct HM as (M & HM). rewrite <- HM. cbn [binary_normalize].
  rewrite (binary_round_even M m' (d' - 1) (-52)).
  - f_equal. lia.
  - rewrite Hm', Zdigits2_shl by lia. fold d'. lia.
  - lia.
  - rewrite HM, Hm', <- Z.mul_assoc, <- Z.pow_add_r by lia. f_equal. f_equal. lia.
  - unfold emin. lia.
  - unfold emax, prec. lia.
Qed.

(** Doubles of integers below [2^53] compare as the integers do. *)
Lemma lt_Number (a b : N) :
  (a < 2 ^ 53)%N -> (b < 2 ^ 53)%N ->
  lt (Number_of_uint a) (Number_of_uint b) = (a <? b)%N.
Proof.
  intros Ha Hb. destruct a as [|p], b as [|q]; try reflexivity.
  - assert (Hq : Z.pos q < 2 ^ 53) by lia.
    destruct (Number_closed q Hq) as (m & -> & _). reflexivity.
  - assert (Hp : Z.pos p < 2 ^ 53) by lia.
    destruct (Number_closed p Hp) as (m & -> & _). reflexivity.
  - assert (Hp : Z.pos p < 2 ^ 53) by lia. assert (Hq : Z.pos q < 2 ^ 53) by lia.
    destruct (Number_closed p Hp) as (m & -> & Hm).
    destruct (Number_closed q Hq) as (m' & -> & Hm').
    pose proof (safe_digits p Hp) as Hd. pose proof (safe_digits q Hq) as Hd'.
    pose proof (Zdigits2_bounds (Z.pos p) ltac:(lia)) as Bp.
    pose proof (Zdigits2_bounds (Z.pos q) ltac:(lia)) as Bq.
    set (d := Zdigits2 (Z.pos p)) in *. set (d' := Zdigits2 (Z.pos q)) in *.
    unfold lt, SFltb. cbn [SFcompare].
    destruct (Z.compare_spec (d - 53) (d' - 53)) as [E|E|E].
    + assert (d = d') by lia. subst d'. rewrite <- H in *.
      change (Pos.compare_cont Eq m m') with (Z.pos m ?= Z.pos m').
      assert (Hpow : 0 < 2 ^ (53 - d)) by (apply Z.pow_pos_nonneg; lia).
      destruct (Z.compare_spec (Z.pos m) (Z.pos m')) as [C|C|C];
        symmetry; [apply N.ltb_ge | apply N.ltb_lt | apply N.ltb_ge]; nia.
    + symmetry. apply N.ltb_lt.
      assert (2 ^ d <= 2 ^ (d' - 1)) by (apply Z.pow_le_mono_r; lia). lia.
    + symmetry. apply N.ltb_ge.
      assert (2 ^ d' <= 2 ^ (d - 1)) by (apply Z.pow_le_mono_r; lia). lia.
Qed.

(** The encoder reads the integer back. *)
Lemma to_uint_Number (n : N) :
  (n < 2 ^ 53)%N -> to_uint (Number_of_uint n) = Some n.
Proof.
  intros Hn. destruct n as [|p]; [reflexivity|].
  assert (Hp : Z.pos p < 2 ^ 53) by lia.
  destruct (Number_closed p Hp) as (m & -> & Hm).
  pose proof (safe_digits p Hp) as Hd. set (d := Zdigits2 (Z.pos p)) in *.
  unfold to_uint. destruct (Z.leb_spec 0 (d - 53)) as [E|E].
  - assert (Ed : d = 53) by lia. rewrite Ed in *.
    rewrite Hm. cbn [Z.pow]. rewrite !Z.mul_1_r.
    destruct (Z.leb_spec (Z.pos p) (Z.of_N UINT_MAX)) as [_|Hbad].
    + reflexivity.
    + exfalso. assert (2 ^ 53 <= Z.of_N UINT_MAX) by (vm_compute; discriminate). lia.
  - replace (- (d - 53)) with (53 - d) by lia. rewrite Hm.
    assert (Hpow : 0 < 2 ^ (53 - d)) by (apply Z.pow_pos_nonneg; lia).
    rewrite Z.mod_mul, Z.div_mul by lia. reflexivity.
Qed.

End JsCounter.

(** ** The candidates endpoint *)

Lemma sanitizeBigInt_rows (l : list (uint * string * string * string * uint)) :
  sanitizeBigInt (JArray (map candidateRow l)) = JArray (map candidateRow l).
Proof.
  cbn [sanitizeBigInt]. f_equal. rewrite map_map.
  apply map_ext. intros [[[[i n] p] q] v]. reflexivity.
Qed.

(** The loop from round [k] on: with fuel for the rounds left and the last
    test, it appends the rows of the candidates from index [k] on. *)
Lemma candidates_loop_runs (s : Voting) :
  candidates_length s < 2 ^ 53 ->
  forall (j k fuel : nat) (acc : list JsValue),
    (k + j = length (candidates s))%nat -> (j < fuel)%nat ->
    candidates_loop fuel (Js.Number_of_uint (N.of_nat k)) (candidates_length s) acc s =
      Some (inr (acc ++ map (fun c => candidateRow
                               (id c, name c, party c, proposal c, voteCount c))
                            (drop k (candidates s)))%list).
Proof.
  intros Hlen. unfold candidates_length in Hlen.
  induction j as [|j IH]; intros k fuel acc Hk Hfuel;
    (destruct fuel as [|fuel]; [lia|]); cbn [candidates_loop].
  - rewrite JsCounter.lt_Number by (unfold candidates_length; lia).
    assert ((N.of_nat k <? candidates_length s) = false) as ->
      by (apply N.ltb_ge; unfold candidates_length; lia).
    rewrite drop_ge by lia. rewrite app_nil_r. reflexivity.
  - rewrite JsCounter.lt_Number by (unfold candidates_length; lia).
    assert (Hlt : (N.of_nat k <? candidates_length s) = true)
      by (apply N.ltb_lt; unfold candidates_length; lia).
    rewrite Hlt, JsCounter.to_uint_Number by lia.
    unfold getCandidate. rewrite Hlt. cbn. rewrite Nat2N.id.
    destruct (candidates s !! k) as [c|] eqn:Hc; [|apply lookup_ge_None in Hc; lia].
    rewrite JsCounter.add_one by lia.
    replace (N.of_nat k + 1) with (N.of_nat (S k)) by lia.
    rewrite (IH (S k) fuel) by lia.
    rewrite (drop_S _ _ _ Hc). cbn [map]. rewrite <- app_assoc. reflexivity.
Qed.

(** X22. The candidates endpoint lists the ledger's candidates: with fewer
    than [2^53] candidates the loop ends after one round per candidate, and
    the endpoint answers 200 with one object per candidate, in the order of
    the candidate array, that carries the stored id and vote count as numbers
    and the stored name, party and proposal. *)
Theorem candidates_listed (s : Voting) (fuel : nat) :
  getCandidateCount s < 2 ^ 53 -> (length (candidates s) < fuel)%nat ->
  get_candidates fuel s =
    Some (200%nat,
          inr (JArray (map (fun c => candidateRow
                              (id c, name c, party c, proposal c, voteCount c))
                           (candidates s)))).
Proof.
  intros Hcount Hfuel. unfold get_candidates, getCandidateCount in *.
  change Js.zero with (Js.Number_of_uint (N.of_nat 0)).
  rewrite (candidates_loop_runs s Hcount (length (candidates s)) 0 fuel [])
    by (cbn; lia).
  cbn [app]. rewrite drop_0, <- (map_map _ candidateRow), sanitizeBigInt_rows.
  rewrite map_map. reflexivity.
Qed.

Lemma candidates_listed_witness :
  get_candidates 4 tied_election =
    Some (200%nat,
          inr (JArray (map (fun c => candidateRow
                              (id c, name c, party c, proposal c, voteCount c))
                           (candidates tied_election)))).
Proof.
  apply candidates_listed; vm_compute; [reflexivity | lia].
Defined.

(** ** Ending and the window *)

Lemma step_past_window s tx :
  electionStarted s = true -> electionEnded s = false ->
  endTime s < timestamp tx.1 ->
  electionStarted (step s tx) = true /\ electionEnded (step s tx) = false /\
  endTime (step s tx) = endTime s /\ totalVotes (step s tx) = totalVotes s.
Proof.
  intros Hs He Ht. destruct tx as [m c]. unfold step; cbn in *.
  destruct (exec m c s) as [s'|w] eqn:E; [|auto].
  destruct c; cbn in E.
  - apply addCandidate_Ok in E as (_ & Hn & _). congruence.
  - apply registerVoter_Ok in E as (_ & _ & ->). auto.
  - apply startElection_Ok in E as (_ & Hn & _). congruence.
  - apply vote_Ok in E as (d & (_ & _ & Hw) & _). lia.
  - apply endElection_Ok in E as (_ & (_ & _ & Hw) & _). lia.
Qed.

(** X23. The election can be ended only inside its window: from a state
    whose election is started and not ended, transactions that all carry a
    block time after [endTime] leave it started and not ended, count no vote,
    and the results endpoint keeps answering 403 "Election has not ended
    yet". *)
Theorem ending_needs_the_window (s : Voting) (more : list (Msg * Call)) (now : N) :
  electionStarted s = true -> electionEnded s = false ->
  Forall (fun tx : Msg * Call => endTime s < timestamp tx.1) more ->
  electionEnded (run s more) = false /\
  totalVotes (run s more) = totalVotes s /\
  getResults (run s more) = Revert (Error "Election has not ended yet") /\
  get_results now (run s more) =
    {| status := 403; body := ErrorBody "Election has not ended yet" |}.
Proof.
  intros Hs He Hall.
  assert (H : electionEnded (run s more) = false /\
              totalVotes (run s more) = totalVotes s).
  { revert s Hs He Hall. induction more as [|tx more IH]; intros s Hs He Hall; [auto|].
    apply Forall_cons in Hall as [Htx Hall].
    destruct (step_past_window s tx Hs He Htx) as (Hs' & He' & Hend & Htot).
    cbn [run fold_left]. fold (run (step s tx) more).
    rewrite <- Htot. apply IH; [exact Hs' | exact He' |].
    rewrite Hend. exact Hall. }
  destruct H as (H1 & H2). split; [exact H1|]. split; [exact H2|].
  unfold get_results, getElectionStatus, getResults. rewrite H1. split; reflexivity.
Qed.

Lemma ending_needs_the_window_witness :
  let late := [({| sender := 1; timestamp := 161 |}, EndElection);
               ({| sender := 7; timestamp := 162 |}, Vote 0);
               ({| sender := 1; timestamp := 163 |}, StartElection 5)] in
  electionEnded (run started_election late) = false /\
  totalVotes (run started_election late) = totalVotes started_election /\
  getResults (run started_election late) = Revert (Error "Election has not ended yet") /\
  get_results 500 (run started_election late) =
    {| status := 403; body := ErrorBody "Election has not ended yet" |}.
Proof.
  apply (ending_needs_the_window started_election);
    [reflexivity | reflexivity |].
  repeat (apply Forall_cons_2; [vm_compute; reflexivity|]). apply Forall_nil_2.
Defined.

(** ** Adding a candidate through the facade *)

(** X24. Adding and then listing: when the add-candidate endpoint answers
    201 and the ledger then holds fewer than [2^53] candidates, the
    candidates endpoint lists the candidates it listed before, followed by
    one object with the next id, the name, party and proposal of the request
    and no votes. *)
Theorem add_then_list (env : Env) (apiKey : option string)
    (name_ party_ proposal_ : string) (now : N) (s : Voting) (fuel : nat) :
  let out := post_candidates env apiKey name_ party_ proposal_ now s in
  status out.1 = 201%nat ->
  getCandidateCount s + 1 < 2 ^ 53 -> (length (candidates s) + 1 < fuel)%nat ->
  exists before,
    get_candidates fuel s = Some (200%nat, inr (JArray before)) /\
    get_candidates fuel out.2 =
      Some (200%nat,
            inr (JArray (before ++
                   [candidateRow (getCandidateCount s, name_, party_, proposal_, 0)]))).
Proof.
  unfold post_candidates, sendTransaction.
  destruct (adminAuth env apiKey); [|discriminate].
  destruct (validation _); [|discriminate].
  destruct (exec _ _ s) as [s'|w] eqn:E; [|discriminate].
  intros _ Hcount Hfuel. cbn in E. apply addCandidate_Ok in E as (_ & _ & ->).
  cbn [negb fst snd]. unfold getCandidateCount in *.
  set (row := fun c : Candidate =>
                candidateRow (id c, name c, party c, proposal c, voteCount c)).
  exists (map row (candidates s)).
  assert (Hget : forall t, candidates_length t < 2 ^ 53 ->
            (length (candidates t) < fuel)%nat ->
            get_candidates fuel t = Some (200%nat, inr (JArray (map row (candidates t))))).
  { intros t Ht Hf. unfold get_candidates, getCandidateCount.
    change Js.zero with (Js.Number_of_uint (N.of_nat 0)).
    rewrite (candidates_loop_runs t Ht (length (candidates t)) 0 fuel [])
      by (cbn; lia).
    cbn [app]. rewrite drop_0. fold row.
    change row with (fun c => candidateRow
                       ((fun c => (id c, name c, party c, proposal c, voteCount c)) c)).
    rewrite <- (map_map _ candidateRow), sanitizeBigInt_rows. reflexivity. }
  split.
  - apply Hget; [lia | lia].
  - rewrite Hget.
    + cbn. rewrite map_app. reflexivity.
    + unfold candidates_length in *. cbn. rewrite length_app. cbn. lia.
    + cbn. rewrite length_app. cbn. lia.
Qed.

Lemma add_then_list_witness :
  let env := {| ADMIN_API_KEY := Some "k"; ADMIN_ADDRESS := 1 |} in
  let out := post_candidates env (Some "k") "B" "P2" "Q2" 20 created_election in
  exists before,
    get_candidates 5 created_election = Some (200%nat, inr (JArray before)) /\
    get_candidates 5 out.2 =
      Some (200%nat,
            inr (JArray (before ++ [candidateRow (1, "B", "P2", "Q2", 0)]))).
Proof.
  apply (add_then_list {| ADMIN_API_KEY := Some "k"; ADMIN_ADDRESS := 1 |} (Some "k")
           "B" "P2" "Q2" 20 created_election 5);
    vm_compute; [reflexivity | reflexivity | lia].
Defined.

(** ** Starting through the facade *)

(** X25. An election started through the start endpoint has candidates and
    a window of at least a minute: when the endpoint answers 200 in a state
    reached from deployment, the election was in the [Created] phase and is
    now [Active] with at least one candidate, [startTime] is the block time
    and [endTime] is [60 * durationInMinutes] seconds later, with
    [durationInMinutes >= 1]. *)
Theorem api_start_opens_a_window (m0 : Msg) (n0 : string) (txs : list (Msg * Call))
    (env : Env) (apiKey : option string) (durationInMinutes : Z) (now : N) :
  let s := run (constructor m0 n0) txs in
  let out := post_election_start env apiKey durationInMinutes now s in
  status out.1 = 200%nat ->
  phase s = Created /\ phase out.2 = Active /\ candidates out.2 <> [] /\
  (1 <= durationInMinutes)%Z /\
  startTime out.2 = now /\
  endTime out.2 = now + Z.to_N durationInMinutes * 60 /\
  startTime out.2 + 60 <= endTime out.2.
Proof.
  intros s. pose proof (deployed_consistent m0 n0 txs) as I. fold s in I.
  unfold post_election_start, validation, isInt_min, sendTransaction.
  destruct (adminAuth env apiKey); [|discriminate]. cbn [negb List.filter map fst snd].
  destruct (Z.leb_spec 1 durationInMinutes) as [Hd|Hd]; [|discriminate].
  cbn [negb List.filter map fst snd].
  destruct (_ <? _)%Z; [discriminate|].
  destruct (exec _ _ s) as [s'|w] eqn:E; [|discriminate].
  intros _. cbn in E. apply startElection_Ok in E as (_ & Hs & Hc & _ & ->).
  cbn [negb fst snd]. cbn.
  assert (He : electionEnded s = false).
  { destruct (electionEnded s) eqn:He; [|reflexivity].
    apply (ended_is_started s I) in He. congruence. }
  split; [apply phase_Created; auto|]. split; [apply phase_Active; auto|].
  split; [exact Hc|]. split; [exact Hd|]. split; [reflexivity|].
  split; [reflexivity|]. lia.
Qed.

Lemma api_start_opens_a_window_witness :
  let env := {| ADMIN_API_KEY := Some "k"; ADMIN_ADDRESS := 1 |} in
  let out := post_election_start env (Some "k") 2 100 created_election in
  phase created_election = Created /\ phase out.2 = Active /\
  candidates out.2 <> [] /\ (1 <= 2)%Z /\
  startTime out.2 = 100 /\ endTime out.2 = 100 + Z.to_N 2 * 60 /\
  startTime out.2 + 60 <= endTime out.2.
Proof.
  apply (api_start_opens_a_window deployer "Board"
           [({| sender := 1; timestamp := 11 |}, AddCandidate "A" "P" "Q")]
           {| ADMIN_API_KEY := Some "k"; ADMIN_ADDRESS := 1 |} (Some "k") 2 100).
  vm_compute. reflexivity.
Defined.
